(** * Litestar: dependency providers and ASGI route handlers

    A shallow embedding of [litestar/di.py] ([Provide]) and
    [litestar/handlers/asgi_handlers.py] ([ASGIRouteHandler]) together with
    the properties their specification states about them.

    Python objects are a small inductive type; mutable [Provide] instances
    live in a store addressed by location, because [__call__] and
    [finalize] assign attributes of [self] and [__eq__] tests identity.
    Calls into user code (the dependency, the guards, the handler function)
    act on an abstract world and are recorded in a trace of events, so that
    "how often was [f] invoked" is a statement about the trace. *)

From Stdlib Require Import ZArith Bool List Ascii.
From stdpp Require Import base option list gmap strings fin_maps.

Local Open Scope string_scope.
Local Open Scope list_scope.

(** ** Python objects *)

(** How a function body was declared: [def], [async def], [def] with
    [yield], [async def] with [yield]. *)
Inductive fnkind := PlainDef | AsyncDef | GeneratorDef | AsyncGeneratorDef.

(** The declaration of a function: its name, its kind, the names of its
    parameters and the name of the class it is annotated to return. *)
Record fn_decl := FnDecl {
  fn_name : string;
  fn_kind : fnkind;
  fn_params : list string;
  fn_returns : string;
}.

Inductive pyobj :=
| PyNone
| PyInt (n : Z)
| PyStr (s : string)
| Empty                                      (* the class litestar.types.Empty *)
| PyFunction (d : fn_decl)
| PyClass (name : string) (call : option fn_decl)  (* a class and the __call__ its body defines *)
| PyInstance (cls : string) (ident : nat) (call : option fn_decl)
| PyBuiltin (name : string)                  (* slot wrappers such as type.__call__ *)
| PyAdapter (ident : nat) (func : pyobj)     (* an adapter object, with its identity, holding a callable *)
| PyCoroutine (body : fn_decl)               (* an awaitable: a call of [body] not yet run *)
| PyRef (l : nat).                           (* a reference to a stored Provide *)

Global Instance fnkind_eq_dec : EqDecision fnkind.
Proof. solve_decision. Defined.
Global Instance fn_decl_eq_dec : EqDecision fn_decl.
Proof. solve_decision. Defined.
Global Instance pyobj_eq_dec : EqDecision pyobj.
Proof. solve_decision. Defined.

(** [x is Empty] *)
Definition is_Empty (x : pyobj) : bool :=
  match x with Empty => true | _ => false end.

(** [a == b].  None, classes, functions and plain instances compare by
    identity, numbers and strings by value; objects overriding [__eq__]
    are outside this model. *)
Definition py_eq (a b : pyobj) : bool := bool_decide (a = b).

(** The builtin [callable]. *)
Definition callable (x : pyobj) : bool :=
  match x with
  | PyNone | PyInt _ | PyStr _ | PyCoroutine _ | PyRef _ => false
  | PyInstance _ _ call => bool_decide (is_Some call)
  | Empty | PyFunction _ | PyClass _ _ | PyBuiltin _ | PyAdapter _ _ => true
  end.

(** [inspect.isclass] *)
Definition isclass (x : pyobj) : bool :=
  match x with Empty | PyClass _ _ => true | _ => false end.

(** [inspect.isgeneratorfunction] and [inspect.isasyncgenfunction]: true
    of function objects compiled from a body with [yield]. *)
Definition isgeneratorfunction (x : pyobj) : bool :=
  match x with
  | PyFunction d => bool_decide (fn_kind d = GeneratorDef)
  | _ => false
  end.

Definition isasyncgenfunction (x : pyobj) : bool :=
  match x with
  | PyFunction d => bool_decide (fn_kind d = AsyncGeneratorDef)
  | _ => false
  end.

(** The attribute [cls.__call__] of a class object: the function its body
    defines, else the slot wrapper inherited from [type]. *)
Definition dunder_call (cls : pyobj) : pyobj :=
  match cls with
  | PyClass _ (Some d) => PyFunction d
  | _ => PyBuiltin "type.__call__"
  end.

(** [bool(x)] of an optional flag. *)
Definition truthy (x : option bool) : bool := default false x.

Definition kwargs := list (string * pyobj).

(** ** Exceptions, warnings, events *)

Inductive exn :=
| ImproperlyConfiguredException (detail : string)
| Raised (e : pyobj).                        (* any exception raised by user code *)

Inductive warning :=
| SyncToThreadWithGenerator (source : pyobj)
| SyncToThreadWithAsyncCallable (source : pyobj)
| ImplicitSyncToThread (source : pyobj).

(** What the embedded methods do that an observer can count. *)
Inductive event :=
| Warned (w : warning)
| Invoked (callee : pyobj) (args : kwargs)   (* the call expression [callee(args)] was evaluated *)
| GuardRan (guard : pyobj)                   (* a guard ran to completion *)
| SignatureParsed (fn : pyobj)               (* ParsedSignature.from_fn / from_signature *)
| ModelCreated (fn : pyobj).                 (* SignatureModel.create *)

Global Instance exn_eq_dec : EqDecision exn.
Proof. solve_decision. Defined.
Global Instance warning_eq_dec : EqDecision warning.
Proof. solve_decision. Defined.
Global Instance event_eq_dec : EqDecision event.
Proof. solve_decision. Defined.

Definition is_Invoked (callee : pyobj) (e : event) : bool :=
  match e with Invoked c _ => py_eq c callee | _ => false end.

(** How often [callee] was invoked according to a trace. *)
Definition invocations (callee : pyobj) (tr : list event) : nat :=
  length (filter (λ e, is_Invoked callee e = true) tr).

(** ** The signature system (litestar.utils.signature, litestar._signature) *)

Module FieldDefinition.
Record t := Build { annotation : pyobj }.
End FieldDefinition.

Module ParsedSignature.
Record t := Build {
  return_type : FieldDefinition.t;
  parameters : gmap string FieldDefinition.t;
}.
End ParsedSignature.

Definition NoneType : pyobj := PyClass "NoneType" None.

(** ** Provide: the record behind [__slots__] *)

Module Provide.
Record t := Build {
  dependency : pyobj;
  has_async_generator_dependency : bool;
  has_sync_callable : bool;
  has_sync_generator_dependency : bool;
  parsed_fn_signature : option ParsedSignature.t;
  signature_model : option pyobj;
  sync_to_thread : bool;
  use_cache : bool;
  value : pyobj;
}.

Definition set_value (v : pyobj) (p : t) : t :=
  Build (dependency p) (has_async_generator_dependency p) (has_sync_callable p)
        (has_sync_generator_dependency p) (parsed_fn_signature p) (signature_model p)
        (sync_to_thread p) (use_cache p) v.

Definition set_parsed_fn_signature (s : option ParsedSignature.t) (p : t) : t :=
  Build (dependency p) (has_async_generator_dependency p) (has_sync_callable p)
        (has_sync_generator_dependency p) s (signature_model p)
        (sync_to_thread p) (use_cache p) (value p).

Definition set_signature_model (m : option pyobj) (p : t) : t :=
  Build (dependency p) (has_async_generator_dependency p) (has_sync_callable p)
        (has_sync_generator_dependency p) (parsed_fn_signature p) m
        (sync_to_thread p) (use_cache p) (value p).
End Provide.



(** ** Route handlers, enclosing scopes and connections *)

Module Connection.
Record t := Build { scope : pyobj; receive : pyobj; send : pyobj }.
End Connection.

Module ASGIRouteHandler.
Record t := Build {
  paths : list string;
  fn : pyobj;
  dependencies : gmap string pyobj;
  dto : pyobj;
  return_dto : pyobj;
  exception_handlers : gmap (Z + string) pyobj;  (* keyed by status code or exception class *)
  guards : list pyobj;
  middleware : list pyobj;
  name : option string;
  opt : gmap string pyobj;
  signature_namespace : gmap string pyobj;
  signature_types : option (list pyobj);
  type_decoders : list pyobj;
  type_encoders : gmap string pyobj;
  parameters : gmap string pyobj;
  is_mount : bool;
}.
End ASGIRouteHandler.

(** The [Controller | Router] a handler is merged into.  Attributes the
    source reads as [other.x or default] may hold [None]; the attribute
    [signature_types] may be missing altogether. *)
Module Router.
Record t := Build {
  path : string;
  dependencies : option (gmap string pyobj);
  dto : pyobj;
  return_dto : pyobj;
  exception_handlers : option (gmap (Z + string) pyobj);
  guards : option (list pyobj);
  middleware : option (list pyobj);
  opt : option (gmap string pyobj);
  signature_namespace : gmap string pyobj;
  signature_types : option (list pyobj);
  type_decoders : option (list pyobj);
  type_encoders : option (gmap string pyobj);
  parameters : gmap string pyobj;
}.
End Router.

(** The arguments of [Provide.finalize]. *)
Module FinalizeArgs.
Record t := Build {
  plugins : option (list pyobj);           (* the registry's [di] plugins, if a registry is given *)
  signature_namespace : gmap string pyobj;
  dependency_keys : gset string;
  data_dto : option pyobj;
  type_decoders : list pyobj;
}.
End FinalizeArgs.

(** ** Collaborators

    Functions of the repository that the two modules import but that are
    not part of this slice are parameters of the development: every
    theorem holds for all of them. *)
Class Collaborators := {
  (* litestar.utils *)
  is_async_callable : pyobj → bool;
  (* [ensure_async_callable ident fn]: where the call creates an object,
     [ident] is the identity the runtime gives to it *)
  ensure_async_callable : nat → pyobj → pyobj;
  unwrap_partial : pyobj → pyobj;
  join_paths : list string → string;
  value_or_default : pyobj → pyobj → pyobj;
  (* litestar.plugins.DIPlugin *)
  is_DIPlugin : pyobj → bool;
  has_typed_init : pyobj → pyobj → bool;
  get_typed_init : pyobj → pyobj → exn + (pyobj * pyobj);
  (* ParsedSignature, SignatureModel, FieldDefinition *)
  from_signature : pyobj → pyobj → exn + ParsedSignature.t;
  from_fn : pyobj → gmap string pyobj → exn + ParsedSignature.t;
  create : gset string → pyobj → option ParsedSignature.t → option pyobj → list pyobj → exn + pyobj;
  is_subclass_of : FieldDefinition.t → pyobj → bool;
  (* BaseRouteHandler: the inherited property and the inherited validation *)
  handler_parsed_fn_signature : ASGIRouteHandler.t → ParsedSignature.t;
  base_validate_handler_function : ASGIRouteHandler.t → exn + unit;
}.

(** What user code does when it runs: evaluating a call expression,
    awaiting its result, and letting a guard judge a connection. *)
Class UserCode (World : Type) := {
  py_call : pyobj → kwargs → World → (exn + pyobj) * World;
  py_await : pyobj → World → (exn + pyobj) * World;
  guard_authorize : pyobj → Connection.t → World → (exn + unit) * World;
}.

(** ** State and the monad of the embedded methods *)

Record state (World : Type) := State {
  world : World;
  heap : gmap nat Provide.t;
  trace : list event;
}.
Arguments State {World} _ _ _.
Arguments world {World} _.
Arguments heap {World} _.
Arguments trace {World} _.

Definition M (World A : Type) : Type := state World → (exn + A) * state World.

Section monad.
Context {World : Type}.

Definition ret {A} (a : A) : M World A := λ σ, (inr a, σ).

Definition bind {A B} (m : M World A) (k : A → M World B) : M World B :=
  λ σ, match m σ with
       | (inl e, σ') => (inl e, σ')
       | (inr a, σ') => k a σ'
       end.

Definition raise {A} (e : exn) : M World A := λ σ, (inl e, σ).

Definition log (e : event) : M World unit :=
  λ σ, (inr tt, State (world σ) (heap σ) (trace σ ++ [e])).

(** Run user code on the world. *)
Definition perform {A} (f : World → (exn + A) * World) : M World A :=
  λ σ, let '(r, w) := f (world σ) in (r, State w (heap σ) (trace σ)).

(** Propagate the result of a collaborator. *)
Definition lift {A} (r : exn + A) : M World A := λ σ, (r, σ).

Definition alloc (p : Provide.t) : M World nat :=
  λ σ, let l := fresh (dom (heap σ)) in
       (inr l, State (world σ) (<[l := p]> (heap σ)) (trace σ)).

Definition load (l : nat) : M World Provide.t :=
  λ σ, match heap σ !! l with
       | Some p => (inr p, σ)
       | None => (inl (Raised (PyStr "ReferenceError")), σ)
       end.

Definition update (l : nat) (f : Provide.t → Provide.t) : M World unit :=
  λ σ, (inr tt, State (world σ) (alter f l (heap σ)) (trace σ)).
End monad.

Global Instance M_ret {World} : MRet (M World) := @ret World.
Global Instance M_bind {World} : MBind (M World) := λ A B k m, bind m k.

(** ** litestar/di.py *)

Section di.
Context {World : Type} `{!Collaborators} `{!UserCode World}.

Definition warn (w : warning) : M World unit := log (Warned w).

(** Evaluate the call expression [callee(args)]. *)
Definition invoke (callee : pyobj) (args : kwargs) : M World pyobj :=
  log (Invoked callee args);; perform (py_call callee args).

(** [ensure_async_callable(dependency)].  An object the call creates is
    a new one each time: it gets the identity of the provider under
    construction, the next free location of the store. *)
Definition wrapped (dependency : pyobj) : M World pyobj :=
  λ σ, (inr (ensure_async_callable (fresh (dom (heap σ))) dependency), σ).

(** [Provide.__init__]; the new instance is stored once the body has run
    to its end, a raising constructor leaves no instance behind. *)
Definition Provide_init (dependency : pyobj) (use_cache : bool)
    (sync_to_thread : option bool) : M World nat :=
  if negb (callable dependency)
  then raise (ImproperlyConfiguredException "Provider dependency must be a callable value")
  else
    let is_class_dependency := isclass dependency in
    let has_sync_generator_dependency :=
      isgeneratorfunction
        (if negb is_class_dependency then dependency else dunder_call dependency) in
    let has_async_generator_dependency :=
      isasyncgenfunction
        (if negb is_class_dependency then dependency else dunder_call dependency) in
    let has_generator_dependency :=
      has_sync_generator_dependency || has_async_generator_dependency in
    if has_generator_dependency && use_cache
    then raise (ImproperlyConfiguredException
                  "Cannot cache generator dependency, consider using Lifespan Context instead.")
    else
      let has_sync_callable := is_class_dependency || negb (is_async_callable dependency) in
      match sync_to_thread with
      | Some _ =>
          if has_generator_dependency then warn (SyncToThreadWithGenerator dependency)
          else if negb has_sync_callable then warn (SyncToThreadWithAsyncCallable dependency)
          else mret ()
      | None =>
          if has_sync_callable && negb has_generator_dependency
          then warn (ImplicitSyncToThread dependency)
          else mret ()
      end;;
      if truthy sync_to_thread && has_sync_callable
      then
        adapter ← wrapped dependency;
        alloc (Provide.Build adapter
                 has_async_generator_dependency false has_sync_generator_dependency
                 None None (truthy sync_to_thread) use_cache Empty)
      else
        alloc (Provide.Build dependency
                 has_async_generator_dependency has_sync_callable has_sync_generator_dependency
                 None None (truthy sync_to_thread) use_cache Empty).

(** [Provide.finalize] *)
Definition finalize (self : nat) (a : FinalizeArgs.t) : M World unit :=
  p ← load self;
  match Provide.parsed_fn_signature p with
  | None =>
      let dependency := unwrap_partial (Provide.dependency p) in
      let plugin :=
        match FinalizeArgs.plugins a with
        | Some di => find (λ q, is_DIPlugin q && has_typed_init q dependency) di
        | None => None
        end in
      match plugin with
      | Some q =>
          '(signature, init_type_hints) ← lift (get_typed_init q dependency);
          log (SignatureParsed dependency);;
          s ← lift (from_signature signature init_type_hints);
          update self (Provide.set_parsed_fn_signature (Some s))
      | None =>
          log (SignatureParsed dependency);;
          s ← lift (from_fn dependency (FinalizeArgs.signature_namespace a));
          update self (Provide.set_parsed_fn_signature (Some s))
      end
  | Some _ => mret ()
  end;;
  p ← load self;
  match Provide.signature_model p with
  | None =>
      log (ModelCreated (Provide.dependency p));;
      m ← lift (create (FinalizeArgs.dependency_keys a) (Provide.dependency p)
                  (Provide.parsed_fn_signature p) (FinalizeArgs.data_dto a)
                  (FinalizeArgs.type_decoders a));
      update self (Provide.set_signature_model (Some m))
  | Some _ => mret ()
  end.

(** [Provide.__call__] *)
Definition Provide_call (self : nat) (args : kwargs) : M World pyobj :=
  p ← load self;
  if Provide.use_cache p && negb (is_Empty (Provide.value p))
  then mret (Provide.value p)
  else
    value ← (if Provide.has_sync_callable p
             then invoke (Provide.dependency p) args
             else c ← invoke (Provide.dependency p) args; perform (py_await c));
    (if Provide.use_cache p
     then update self (Provide.set_value value)
     else mret ());;
    mret value.

(** [Provide.__eq__]: [self] is a stored instance, [other] any object. *)
Definition Provide_eq (h : gmap nat Provide.t) (self : nat) (other : pyobj) : bool :=
  bool_decide (other = PyRef self)
  || match other, h !! self with
     | PyRef l, Some s =>
         match h !! l with
         | Some o =>
             py_eq (Provide.dependency o) (Provide.dependency s)
             && Bool.eqb (Provide.use_cache o) (Provide.use_cache s)
             && py_eq (Provide.value o) (Provide.value s)
         | None => false
         end
     | _, _ => false
     end.

(** A caller that invokes a provider once for each element of [calls],
    in order, and keeps every outcome, exceptions included. *)
Fixpoint call_all (self : nat) (calls : list kwargs) (σ : state World)
    : list (exn + pyobj) * state World :=
  match calls with
  | [] => ([], σ)
  | args :: rest =>
      let '(r, σ1) := Provide_call self args σ in
      let '(rs, σ2) := call_all self rest σ1 in
      (r :: rs, σ2)
  end.

(** Call [finalize] once for each element of [calls], in order. *)
Fixpoint finalize_each (self : nat) (calls : list FinalizeArgs.t) : M World unit :=
  match calls with
  | [] => mret ()
  | a :: rest => finalize self a;; finalize_each self rest
  end.
End di.

(** ** litestar/handlers/asgi_handlers.py *)

(** [x or {}] and [x or []] for an attribute that may hold [None]. *)
Definition dict_or_empty `{Countable K} {V} `{EqDecision V}
    (x : option (gmap K V)) : gmap K V :=
  match x with
  | Some d => if bool_decide (d = ∅) then ∅ else d
  | None => ∅
  end.

Definition list_or_empty {A} (x : option (list A)) : list A :=
  match x with
  | Some (a :: l) => a :: l
  | _ => []
  end.

(** The dict display [{**a, **b}]: the entries of [a], overridden and
    extended by those of [b]. *)
Definition dict_merge `{Countable K} {V} (a b : gmap K V) : gmap K V := b ∪ a.

(** The handlers and scopes an application holds, by location. *)
Record registry := Registry {
  handlers : gmap nat ASGIRouteHandler.t;
  routers : gmap nat Router.t;
}.

Section asgi_handlers.
Context {World : Type} `{!Collaborators} `{!UserCode World}.

(** [ASGIRouteHandler.__init__].
    Modelled from the spec: [BaseRouteHandler.__init__], to which the
    constructor delegates, is not in this slice; it takes the path
    fragments (default [/] when omitted) and stores every configuration
    value under the attribute of the same name, an omitted one as the
    empty mapping or sequence. *)
Definition ASGIRouteHandler_init
    (path : option (list string)) (fn : pyobj)
    (dependencies : option (gmap string pyobj)) (dto return_dto : pyobj)
    (exception_handlers : option (gmap (Z + string) pyobj))
    (guards middleware : option (list pyobj)) (name : option string)
    (opt : option (gmap string pyobj))
    (signature_namespace : option (gmap string pyobj))
    (signature_types : option (list pyobj))
    (type_decoders : option (list pyobj))
    (type_encoders : option (gmap string pyobj))
    (parameters : option (gmap string pyobj))
    (is_mount : bool) : ASGIRouteHandler.t :=
  ASGIRouteHandler.Build
    (default ["/"] path) fn (default ∅ dependencies) dto return_dto
    (default ∅ exception_handlers) (default [] guards) (default [] middleware)
    name (default ∅ opt) (default ∅ signature_namespace) signature_types
    (default [] type_decoders) (default ∅ type_encoders) (default ∅ parameters)
    is_mount.

(** [ASGIRouteHandler.merge], on the attribute values. *)
Definition merge (self : ASGIRouteHandler.t) (other : Router.t) : ASGIRouteHandler.t :=
  ASGIRouteHandler_init
    (Some ((λ p, join_paths [Router.path other; p]) <$> ASGIRouteHandler.paths self))
    (ASGIRouteHandler.fn self)
    (Some (dict_merge (dict_or_empty (Router.dependencies other))
                      (ASGIRouteHandler.dependencies self)))
    (value_or_default (ASGIRouteHandler.dto self) (Router.dto other))
    (value_or_default (ASGIRouteHandler.return_dto self) (Router.return_dto other))
    (Some (dict_merge (dict_or_empty (Router.exception_handlers other))
                      (ASGIRouteHandler.exception_handlers self)))
    (Some (list_or_empty (Router.guards other) ++ ASGIRouteHandler.guards self))
    (Some (list_or_empty (Router.middleware other) ++ ASGIRouteHandler.middleware self))
    (ASGIRouteHandler.name self)
    (Some (dict_merge (dict_or_empty (Router.opt other))
                      (dict_or_empty (Some (ASGIRouteHandler.opt self)))))
    (Some (dict_merge (Router.signature_namespace other)
                      (ASGIRouteHandler.signature_namespace self)))
    (Router.signature_types other)
    (Some (list_or_empty (Router.type_decoders other) ++ ASGIRouteHandler.type_decoders self))
    (Some (dict_merge (dict_or_empty (Router.type_encoders other))
                      (ASGIRouteHandler.type_encoders self)))
    (Some (dict_merge (Router.parameters other) (ASGIRouteHandler.parameters self)))
    (ASGIRouteHandler.is_mount self).

(** [self.merge(other)] on stored objects: reads both, stores the new
    handler at a fresh location and returns that location. *)
Definition merge_at (self other : nat) (r : registry) : option (nat * registry) :=
  h ← handlers r !! self;
  o ← routers r !! other;
  let l := fresh (dom (handlers r)) in
  Some (l, Registry (<[l := merge h o]> (handlers r)) (routers r)).

(** [ASGIRouteHandler._validate_handler_function] *)
Definition _validate_handler_function (self : ASGIRouteHandler.t) : exn + unit :=
  match base_validate_handler_function self with
  | inl e => inl e
  | inr _ =>
      let parsed_fn_signature := handler_parsed_fn_signature self in
      if negb (is_subclass_of (ParsedSignature.return_type parsed_fn_signature) NoneType)
      then inl (ImproperlyConfiguredException "ASGI handler functions should return 'None'")
      else if existsb
                (λ key, bool_decide (ParsedSignature.parameters parsed_fn_signature !! key = None))
                ["scope"; "send"; "receive"]
      then inl (ImproperlyConfiguredException
                  "ASGI handler functions should define 'scope', 'send' and 'receive' arguments")
      else if negb (is_async_callable (ASGIRouteHandler.fn self))
      then inl (ImproperlyConfiguredException
                  "Functions decorated with 'asgi' must be async functions")
      else inr ()
  end.

(** Modelled from the spec: [BaseRouteHandler._resolve_guards] is not in
    this slice; it yields the handler's effective guard sequence, which
    is the handler's own once it has been merged with its ancestors. *)
Definition _resolve_guards (self : ASGIRouteHandler.t) : list pyobj :=
  ASGIRouteHandler.guards self.

(** Modelled from the spec: [BaseRouteHandler.authorize_connection] is
    not in this slice; the guards run to completion, in sequence, and a
    failing guard surfaces its own error, which ends the check. *)
Fixpoint run_guards (gs : list pyobj) (connection : Connection.t) : M World unit :=
  match gs with
  | [] => mret ()
  | g :: rest =>
      perform (guard_authorize g connection);;
      log (GuardRan g);;
      run_guards rest connection
  end.

Definition authorize_connection (self : ASGIRouteHandler.t) (connection : Connection.t)
    : M World unit :=
  run_guards (_resolve_guards self) connection.

(** The keyword arguments [handle] passes to the handler function. *)
Definition transport_kwargs (connection : Connection.t) : kwargs :=
  [("scope", Connection.scope connection);
   ("receive", Connection.receive connection);
   ("send", Connection.send connection)].

(** [ASGIRouteHandler.handle] *)
Definition handle (self : ASGIRouteHandler.t) (connection : Connection.t) : M World unit :=
  match _resolve_guards self with
  | [] => mret ()
  | _ :: _ => authorize_connection self connection
  end;;
  c ← invoke (ASGIRouteHandler.fn self) (transport_kwargs connection);
  perform (py_await c);;
  mret ().
End asgi_handlers.

(** The keyword arguments that [asgi] does not name itself; they travel
    through its [kwargs] to the handler class. *)
Module HandlerKwargs.
Record t := Build {
  dependencies : option (gmap string pyobj);
  dto : pyobj;
  return_dto : pyobj;
  middleware : option (list pyobj);
  signature_types : option (list pyobj);
  type_decoders : option (list pyobj);
  type_encoders : option (gmap string pyobj);
  parameters : option (gmap string pyobj);
}.
End HandlerKwargs.

(** The callable a handler class is: the constructor's arguments in the
    order of [ASGIRouteHandler_init]. *)
Definition handler_class : Type :=
  option (list string) → pyobj → option (gmap string pyobj) → pyobj → pyobj →
  option (gmap (Z + string) pyobj) → option (list pyobj) → option (list pyobj) →
  option string → option (gmap string pyobj) → option (gmap string pyobj) →
  option (list pyobj) → option (list pyobj) → option (gmap string pyobj) →
  option (gmap string pyobj) → bool → ASGIRouteHandler.t.

(** [asgi]: the configuration is fixed first, the returned [decorator]
    takes the function. *)
Definition asgi (path : option (list string))
    (exception_handlers : option (gmap (Z + string) pyobj))
    (guards : option (list pyobj)) (name : option string)
    (opt : option (gmap string pyobj)) (is_mount : bool)
    (signature_namespace : option (gmap string pyobj))
    (handler_class : handler_class) (kwargs : HandlerKwargs.t)
    : pyobj → ASGIRouteHandler.t :=
  λ fn,
    handler_class path fn (HandlerKwargs.dependencies kwargs)
      (HandlerKwargs.dto kwargs) (HandlerKwargs.return_dto kwargs)
      exception_handlers guards (HandlerKwargs.middleware kwargs) name opt
      signature_namespace (HandlerKwargs.signature_types kwargs)
      (HandlerKwargs.type_decoders kwargs) (HandlerKwargs.type_encoders kwargs)
      (HandlerKwargs.parameters kwargs) is_mount.

(** The object [Provide.__init__] inspects for generator semantics: the
    dependency, or [__call__] of a class dependency. *)
Definition entry_point (dependency : pyobj) : pyobj :=
  if negb (isclass dependency) then dependency else dunder_call dependency.

Definition generator_based (dependency : pyobj) : bool :=
  isgeneratorfunction (entry_point dependency) || isasyncgenfunction (entry_point dependency).




(** What [await callee(args)] does to the world. *)
Definition call_and_await `{!UserCode World} (callee : pyobj) (args : kwargs)
    (w : World) : (exn + pyobj) * World :=
  match py_call callee args w with
  | (inr c, w') => py_await c w'
  | (inl e, w') => (inl e, w')
  end.

(** [handle] returns [None]: the value the handler function produces is
    dropped, an exception is kept. *)
Definition discard {A} (r : exn + A) : exn + unit :=
  match r with inl e => inl e | inr _ => inr () end.

(** What invoking the dependency of a provider does to the world: the
    call, awaited when the provider is not classified synchronous. *)
Definition dependency_action `{!UserCode World} (p : Provide.t) (args : kwargs)
    (w : World) : (exn + pyobj) * World :=
  if Provide.has_sync_callable p
  then py_call (Provide.dependency p) args w
  else call_and_await (Provide.dependency p) args w.

(** What invoking the dependency of a provider once for each element of
    [calls] does, in order: the outcomes and the final world. *)
Fixpoint dependency_actions `{!UserCode World} (p : Provide.t) (calls : list kwargs)
    (w : World) : list (exn + pyobj) * World :=
  match calls with
  | [] => ([], w)
  | args :: rest =>
      let '(r, w1) := dependency_action p args w in
      let '(rs, w2) := dependency_actions p rest w1 in
      (r :: rs, w2)
  end.

(** A provider wraps a pure function [f]: invoking its dependency yields
    [f args] whatever the world and leaves the world as it was. *)
Definition wraps_pure `{!UserCode World} (p : Provide.t) (f : kwargs → pyobj) : Prop :=
  ∀ args w, dependency_action p args w = (inr (f args), w).

(** A result the cache can hold: any object but the sentinel. *)
Definition legal_result (v : pyobj) : Prop := v ≠ Empty.



(** The guards [gs] all let the connection pass, taking the world from
    [w] to [w']. *)
Inductive guards_pass `{!UserCode World} (connection : Connection.t)
    : list pyobj → World → World → Prop :=
| guards_pass_nil w : guards_pass connection [] w w
| guards_pass_cons g gs w w1 w2 :
    guard_authorize g connection w = (inr (), w1) →
    guards_pass connection gs w1 w2 →
    guards_pass connection (g :: gs) w w2.

(** In a merged mapping the child's entries win and the parent's fill in
    the rest. *)
Definition child_wins `{Countable K} {V} (parent child merged : gmap K V) : Prop :=
  ∀ k, merged !! k = match child !! k with
                     | Some v => Some v
                     | None => parent !! k
                     end.

(** The adapter [ensure_async_callable] makes of [f] is faithful: awaiting
    a call of it does what calling [f] does. *)
Definition adapter_faithful `{!Collaborators} `{!UserCode World} (f : pyobj) : Prop :=
  ∀ ident args (w : World),
    call_and_await (ensure_async_callable ident f) args w = py_call f args w.

(** An enclosing scope that configures nothing a handler could inherit. *)
Definition configures_nothing (parent : Router.t) : Prop :=
  default ∅ (Router.dependencies parent) = ∅
  ∧ default ∅ (Router.exception_handlers parent) = ∅
  ∧ default [] (Router.guards parent) = []
  ∧ default [] (Router.middleware parent) = []
  ∧ default ∅ (Router.opt parent) = ∅
  ∧ Router.signature_namespace parent = ∅
  ∧ default [] (Router.type_decoders parent) = []
  ∧ default ∅ (Router.type_encoders parent) = ∅
  ∧ Router.parameters parent = ∅.


(** The source a warning names. *)
Definition warning_source (w : warning) : pyobj :=
  match w with
  | SyncToThreadWithGenerator s | SyncToThreadWithAsyncCallable s
  | ImplicitSyncToThread s => s
  end.

(** ** A concrete runtime for worked examples

    One instance of the collaborators and of user code, following what
    the absent functions do on the objects modelled here.  The world is a
    counter that only the function named [tick] advances. *)
Module Sample.
Definition is_coroutine_decl (d : fn_decl) : bool := bool_decide (fn_kind d = AsyncDef).

Definition coroutine_callable (x : pyobj) : bool :=
  match x with
  | PyFunction d => is_coroutine_decl d
  | PyClass _ (Some d) | PyInstance _ _ (Some d) => is_coroutine_decl d
  | _ => false
  end.

Definition as_async_callable (ident : nat) (x : pyobj) : pyobj :=
  if coroutine_callable x then x else PyAdapter ident x.

Fixpoint segments (s acc : string) : list string :=
  match s with
  | EmptyString => if bool_decide (acc = "") then [] else [acc]
  | String c rest =>
      if bool_decide (c = "/"%char)
      then (if bool_decide (acc = "") then segments rest "" else acc :: segments rest "")
      else segments rest (acc +:+ String c "")
  end.

Definition normalize_path (p : string) : string :=
  "/" +:+ String.concat "/" (segments p "").

Definition join (ps : list string) : string :=
  normalize_path (String.concat "/" ps).

Definition or_default (v d : pyobj) : pyobj := if is_Empty v then d else v.

Definition parse (d : fn_decl) : ParsedSignature.t :=
  ParsedSignature.Build
    (FieldDefinition.Build (PyClass (fn_returns d) None))
    (list_to_map ((λ n, (n, FieldDefinition.Build (PyClass "Any" None))) <$> fn_params d)).

Definition parse_fn (fn : pyobj) (_ : gmap string pyobj) : exn + ParsedSignature.t :=
  match fn with
  | PyFunction d | PyClass _ (Some d) | PyInstance _ _ (Some d) => inr (parse d)
  | _ => inl (Raised (PyStr "TypeError"))
  end.

Definition signature_of_handler (h : ASGIRouteHandler.t) : ParsedSignature.t :=
  match ASGIRouteHandler.fn h with
  | PyFunction d => parse d
  | _ => parse (FnDecl "" PlainDef [] "Any")
  end.

Global Instance collaborators : Collaborators := {|
  is_async_callable := coroutine_callable;
  ensure_async_callable := as_async_callable;
  unwrap_partial := id;
  join_paths := join;
  value_or_default := or_default;
  is_DIPlugin := λ _, false;
  has_typed_init := λ _ _, false;
  get_typed_init := λ _ _, inl (Raised (PyStr "NotImplementedError"));
  from_signature := λ _ _, inl (Raised (PyStr "NotImplementedError"));
  from_fn := parse_fn;
  create := λ _ _ _ _ _, inr (PyClass "SignatureModel" None);
  is_subclass_of := λ f cls, py_eq (FieldDefinition.annotation f) cls;
  handler_parsed_fn_signature := signature_of_handler;
  base_validate_handler_function := λ _, inr ();
|}.

(** Running the body of a declared function. *)
Definition run_body (d : fn_decl) (w : nat) : (exn + pyobj) * nat :=
  if bool_decide (fn_name d = "tick") then (inr (PyInt (Z.of_nat w)), S w)
  else if bool_decide (fn_name d = "boom") then (inl (Raised (PyStr "RuntimeError")), w)
  else if bool_decide (fn_returns d = "NoneType") then (inr PyNone, w)
  else if bool_decide (fn_returns d = "Empty") then (inr Empty, w)
  else (inr (PyStr (fn_name d)), w).

Definition call (callee : pyobj) (_ : kwargs) (w : nat) : (exn + pyobj) * nat :=
  match callee with
  | PyFunction d =>
      match fn_kind d with
      | PlainDef => run_body d w
      | _ => (inr (PyCoroutine d), w)
      end
  | PyAdapter _ (PyFunction d) => (inr (PyCoroutine d), w)
  | PyClass n call => (inr (PyInstance n w call), w)
  | _ => (inl (Raised (PyStr "TypeError")), w)
  end.

Definition await (x : pyobj) (w : nat) : (exn + pyobj) * nat :=
  match x with
  | PyCoroutine d => run_body d w
  | _ => (inl (Raised (PyStr "TypeError")), w)
  end.

Definition authorize (g : pyobj) (_ : Connection.t) (w : nat) : (exn + unit) * nat :=
  match g with
  | PyFunction d =>
      if bool_decide (fn_name d = "deny")
      then (inl (Raised (PyStr "NotAuthorizedException")), w)
      else (inr (), w)
  | _ => (inl (Raised (PyStr "TypeError")), w)
  end.

Global Instance user_code : UserCode nat := {|
  py_call := call;
  py_await := await;
  guard_authorize := authorize;
|}.

Definition σ0 : state nat := State 0 ∅ [].

(** Some dependencies. *)
Definition plain_f := PyFunction (FnDecl "f" PlainDef ["x"] "str").
Definition none_f := PyFunction (FnDecl "nothing" PlainDef [] "NoneType").
Definition empty_f := PyFunction (FnDecl "unset" PlainDef [] "Empty").
Definition async_f := PyFunction (FnDecl "g" AsyncDef [] "str").
Definition gen_f := PyFunction (FnDecl "session" GeneratorDef [] "Generator").
Definition async_gen_f := PyFunction (FnDecl "stream" AsyncGeneratorDef [] "AsyncGenerator").
Definition tick := PyFunction (FnDecl "tick" PlainDef [] "int").
Definition Service := PyClass "Service" (Some (FnDecl "__call__" PlainDef ["self"] "str")).
Definition GenService := PyClass "GenService" (Some (FnDecl "__call__" GeneratorDef ["self"] "Generator")).

(** An ASGI application, a connection, two guards. *)
Definition app := PyFunction (FnDecl "app" AsyncDef ["scope"; "receive"; "send"] "NoneType").
Definition app_without_send :=
  PyFunction (FnDecl "app" AsyncDef ["scope"; "receive"] "NoneType").
Definition connection :=
  Connection.Build (PyStr "scope") (PyBuiltin "receive") (PyBuiltin "send").
Definition allow := PyFunction (FnDecl "allow" PlainDef ["connection"; "handler"] "NoneType").
Definition deny := PyFunction (FnDecl "deny" PlainDef ["connection"; "handler"] "NoneType").

Definition handler_of (fn : pyobj) (guards : list pyobj) : ASGIRouteHandler.t :=
  ASGIRouteHandler_init (Some ["/child"]) fn None Empty Empty None (Some guards) None None
    (Some {[ "tag" := PyStr "child" ]}) None None None None None false.

Definition parent : Router.t :=
  Router.Build "/parent" (Some {[ "db" := PyStr "parent db" ]}) Empty Empty None
    (Some [allow]) None (Some {[ "tag" := PyStr "parent"; "origin" := PyStr "parent" ]})
    ∅ None None None ∅.

Definition registered : registry :=
  Registry {[ 0 := handler_of app [deny] ]} {[ 0 := parent ]}.
Definition merged_registry : registry :=
  Registry {[ 0 := handler_of app [deny]; 1 := merge (handler_of app [deny]) parent ]}
           {[ 0 := parent ]}.

(** States reached by running the constructor. *)
Definition cached_none : state nat := (Provide_init none_f true None σ0).2.
Definition cached_unset : state nat := (Provide_init empty_f true None σ0).2.
Definition uncached_tick : state nat := (Provide_init tick false (Some false) σ0).2.
Definition async_provider : state nat := (Provide_init async_f false None σ0).2.

(** Two providers over the same function with caching on, the first of
    which has been invoked once. *)
Definition one_resolved : state nat :=
  ((a ← Provide_init plain_f true (Some false);
    b ← Provide_init plain_f true (Some false);
    Provide_call a []) σ0).2.

Definition no_plugins : FinalizeArgs.t := FinalizeArgs.Build None ∅ ∅ None [].

(** A failing dependency, a scope that configures nothing, an outer scope
    and the extra keyword arguments of a bare decorator. *)
Definition boom := PyFunction (FnDecl "boom" PlainDef [] "str").
Definition cached_boom : state nat := (Provide_init boom true (Some false) σ0).2.
Definition cached_plain : state nat := (Provide_init plain_f true (Some false) σ0).2.
Definition two_unresolved : state nat :=
  ((a ← Provide_init plain_f true (Some false);
    Provide_init plain_f true (Some false)) σ0).2.
Definition bare : Router.t :=
  Router.Build "/api" None Empty Empty None None None None ∅ None None None ∅.
Definition outer : Router.t :=
  Router.Build "/v1" None Empty Empty None (Some [deny]) None
    (Some {[ "origin" := PyStr "outer"; "realm" := PyStr "outer" ]}) ∅ None None None ∅.
Definition no_kwargs : HandlerKwargs.t :=
  HandlerKwargs.Build None Empty Empty None None None None None.
End Sample.

(** ** A second runtime

    The sample runtime with a registry plugin that knows the typed
    constructor of every class, and a signature model that cannot be
    created while a data DTO is given. *)
Module Plugged.
Definition typed_init_plugin : pyobj := PyInstance "DIPlugin" 1 None.
Definition serialization_plugin : pyobj := PyInstance "SerializationPlugin" 0 None.

Definition plugin_signature : ParsedSignature.t :=
  ParsedSignature.Build (FieldDefinition.Build NoneType)
    {[ "name" := FieldDefinition.Build (PyClass "str" None) ]}.

Definition collaborators : Collaborators := {|
  is_async_callable := Sample.coroutine_callable;
  ensure_async_callable := Sample.as_async_callable;
  unwrap_partial := id;
  join_paths := Sample.join;
  value_or_default := Sample.or_default;
  is_DIPlugin := λ q, match q with
                      | PyInstance cls _ _ => bool_decide (cls = "DIPlugin")
                      | _ => false
                      end;
  has_typed_init := λ _ dependency, isclass dependency;
  get_typed_init := λ _ _, inr (PyStr "signature", PyStr "hints");
  from_signature := λ _ _, inr plugin_signature;
  from_fn := Sample.parse_fn;
  create := λ _ _ _ data_dto _,
    match data_dto with
    | Some _ => inl (Raised (PyStr "ImproperlyConfiguredException"))
    | None => inr (PyClass "SignatureModel" None)
    end;
  is_subclass_of := λ f cls, py_eq (FieldDefinition.annotation f) cls;
  handler_parsed_fn_signature := Sample.signature_of_handler;
  base_validate_handler_function := λ _, inr ();
|}.

Definition with_dto : FinalizeArgs.t :=
  FinalizeArgs.Build None {[ "x" := PyClass "int" None ]} ∅ (Some (PyClass "DTO" None)) [].
Definition with_plugins : FinalizeArgs.t :=
  FinalizeArgs.Build (Some [serialization_plugin; typed_init_plugin; typed_init_plugin])
    ∅ ∅ None [].
Definition without_dto : FinalizeArgs.t := FinalizeArgs.Build None ∅ ∅ None [].
Definition plugins_and_dto : FinalizeArgs.t :=
  FinalizeArgs.Build (Some [serialization_plugin; typed_init_plugin])
    ∅ ∅ (Some (PyClass "DTO" None)) [].

Definition function_provider : state nat :=
  (Provide_init (H := collaborators) Sample.plain_f false (Some false) Sample.σ0).2.
Definition class_provider : state nat :=
  (Provide_init (H := collaborators) Sample.Service false (Some false) Sample.σ0).2.
End Plugged.

(** * Properties *)

Ltac unfold_monad :=
  unfold warn, invoke, wrapped in *;
  unfold mbind, M_bind, mret, M_ret, bind, ret, raise, log, perform,
    lift, load, update, alloc in *; simpl in *.

Lemma invocations_app callee (t1 t2 : list event) :
  invocations callee (t1 ++ t2) = invocations callee t1 + invocations callee t2.
Proof. unfold invocations. by rewrite filter_app, length_app. Qed.

Lemma invocations_Invoked callee args : invocations callee [Invoked callee args] = 1.
Proof.
  unfold invocations. rewrite filter_cons_True; [done|].
  simpl. unfold py_eq. by rewrite bool_decide_eq_true.
Qed.

Lemma invocations_GuardRan callee (gs : list pyobj) :
  invocations callee (GuardRan <$> gs) = 0.
Proof.
  unfold invocations. induction gs as [|g gs IH]; [done|].
  simpl. by rewrite filter_cons_False.
Qed.

Section di_properties.
Context {World : Type} {collab : Collaborators} {user : UserCode World}.

(** With caching off, a call does what the dependency does: its outcome
    and world are those of the dependency, the store is left alone and
    the call is logged. *)
Lemma Provide_call_uncached self p args (σ : state World) :
  heap σ !! self = Some p →
  Provide.use_cache p = false →
  Provide_call self args σ
  = ((dependency_action p args (world σ)).1,
     State (dependency_action p args (world σ)).2 (heap σ)
       (trace σ ++ [Invoked (Provide.dependency p) args])).
Proof.
  intros Hp Huc. unfold Provide_call, dependency_action, call_and_await.
  unfold_monad. rewrite Hp, Huc. simpl.
  destruct (Provide.has_sync_callable p); simpl.
  - by destruct (py_call _ _ _) as [[e|v] w].
  - destruct (py_call _ _ _) as [[e|c] w]; simpl; [done|].
    by destruct (py_await _ _) as [[e|v] w'].
Qed.

Lemma call_all_uncached self p calls (σ : state World) :
  heap σ !! self = Some p →
  Provide.use_cache p = false →
  call_all self calls σ
  = ((dependency_actions p calls (world σ)).1,
     State (dependency_actions p calls (world σ)).2 (heap σ)
       (trace σ ++ (Invoked (Provide.dependency p) <$> calls))).
Proof.
  intros Hp Huc. revert σ Hp.
  induction calls as [|args rest IH]; intros σ Hp; simpl.
  - rewrite app_nil_r. by destruct σ.
  - rewrite (Provide_call_uncached self p args σ Hp Huc).
    destruct (dependency_action p args (world σ)) as [r w1]. simpl.
    rewrite (IH (State w1 (heap σ) (trace σ ++ [Invoked (Provide.dependency p) args])) Hp).
    simpl. destruct (dependency_actions p rest w1) as [rs w2]. simpl.
    by rewrite <- app_assoc.
Qed.

(** The exact result of a construction that passes both checks. *)
Lemma Provide_init_returns dependency use_cache sync_to_thread (σ : state World) :
  callable dependency = true →
  generator_based dependency && use_cache = false →
  let self := fresh (dom (heap σ)) in
  let has_sync_callable := isclass dependency || negb (is_async_callable dependency) in
  Provide_init dependency use_cache sync_to_thread σ
  = (inr self,
     State (world σ)
       (<[self :=
            if truthy sync_to_thread && has_sync_callable
            then Provide.Build (ensure_async_callable self dependency)
                   (isasyncgenfunction (entry_point dependency)) false
                   (isgeneratorfunction (entry_point dependency))
                   None None (truthy sync_to_thread) use_cache Empty
            else Provide.Build dependency
                   (isasyncgenfunction (entry_point dependency)) has_sync_callable
                   (isgeneratorfunction (entry_point dependency))
                   None None (truthy sync_to_thread) use_cache Empty]> (heap σ))
       (trace σ
        ++ (Warned <$>
              match sync_to_thread with
              | Some _ =>
                  if generator_based dependency then [SyncToThreadWithGenerator dependency]
                  else if negb has_sync_callable
                       then [SyncToThreadWithAsyncCallable dependency]
                       else []
              | None =>
                  if has_sync_callable && negb (generator_based dependency)
                  then [ImplicitSyncToThread dependency]
                  else []
              end))).
Proof.
  intros Hcallable Hgen self has_sync_callable. subst self has_sync_callable.
  unfold Provide_init. rewrite Hcallable. simpl.
  unfold generator_based, entry_point in *. rewrite Hgen.
  unfold_monad.
  destruct sync_to_thread as [[]|]; simpl;
    destruct (isgeneratorfunction _ || isasyncgenfunction _); simpl;
    destruct (isclass dependency || negb (is_async_callable dependency)); simpl;
    rewrite ?app_nil_r; try reflexivity; by destruct σ.
Qed.

(** A construction that returns has passed both checks. *)
Lemma Provide_init_passed dependency use_cache sync_to_thread (σ σ' : state World) self :
  Provide_init dependency use_cache sync_to_thread σ = (inr self, σ') →
  callable dependency = true ∧ generator_based dependency && use_cache = false.
Proof.
  unfold Provide_init, generator_based, entry_point. intros H.
  destruct (callable dependency); simpl in H; [|by unfold_monad].
  destruct (_ && use_cache) eqn:Hgen; [by unfold_monad|]. done.
Qed.

(** What a successful construction stores. *)
Lemma Provide_init_stores dependency use_cache sync_to_thread (σ σ' : state World) self :
  Provide_init dependency use_cache sync_to_thread σ = (inr self, σ') →
  ∃ p, heap σ' !! self = Some p
       ∧ heap σ !! self = None
       ∧ Provide.use_cache p = use_cache
       ∧ Provide.value p = Empty
       ∧ Provide.parsed_fn_signature p = None
       ∧ Provide.signature_model p = None
       ∧ Provide.has_sync_generator_dependency p
         = isgeneratorfunction (entry_point dependency)
       ∧ Provide.has_async_generator_dependency p
         = isasyncgenfunction (entry_point dependency)
       ∧ (if truthy sync_to_thread
             && (isclass dependency || negb (is_async_callable dependency))
          then Provide.dependency p = ensure_async_callable self dependency
               ∧ Provide.has_sync_callable p = false
          else Provide.dependency p = dependency
               ∧ Provide.has_sync_callable p
                 = isclass dependency || negb (is_async_callable dependency)).
Proof.
  intros H. destruct (Provide_init_passed _ _ _ _ _ _ H) as [Hcallable Hgen].
  rewrite (Provide_init_returns _ _ sync_to_thread σ Hcallable Hgen) in H.
  simplify_eq. simpl.
  eexists. split; [apply lookup_insert_eq|].
  split. { apply not_elem_of_dom, is_fresh. }
  destruct (truthy sync_to_thread && _); simpl; done.
Qed.

Lemma invocations_calls callee (calls : list kwargs) :
  invocations callee (Invoked callee <$> calls) = length calls.
Proof.
  induction calls as [|args rest IH]; [done|].
  change (Invoked callee <$> args :: rest)
    with ([Invoked callee args] ++ (Invoked callee <$> rest)).
  by rewrite invocations_app, invocations_Invoked, IH.
Qed.

(** C10.  Constructing a provider with [use_cache=False] over a callable
    succeeds, and the provider never writes its cached-value slot:
    however often it is invoked, every invocation invokes the dependency
    the provider holds anew, so the outcomes and the final world are
    exactly those of invoking that dependency once per call, in order,
    be they values or exceptions; the store is as construction left it
    (the slot holds [Empty]) and the trace gains one invocation of the
    dependency per call, with the arguments given. *)
Theorem uncached_provider_never_caches dependency sync_to_thread
    (σ0 : state World) calls :
  callable dependency = true →
  ∃ self σ p,
    Provide_init dependency false sync_to_thread σ0 = (inr self, σ)
    ∧ heap σ !! self = Some p
    ∧ Provide.value p = Empty
    ∧ (if truthy sync_to_thread
          && (isclass dependency || negb (is_async_callable dependency))
       then Provide.dependency p = ensure_async_callable self dependency
            ∧ Provide.has_sync_callable p = false
       else Provide.dependency p = dependency
            ∧ Provide.has_sync_callable p
              = isclass dependency || negb (is_async_callable dependency))
    ∧ call_all self calls σ
      = ((dependency_actions p calls (world σ)).1,
         State (dependency_actions p calls (world σ)).2 (heap σ)
           (trace σ ++ (Invoked (Provide.dependency p) <$> calls)))
    ∧ invocations (Provide.dependency p) (trace (call_all self calls σ).2)
      = invocations (Provide.dependency p) (trace σ) + length calls.
Proof.
  intros Hcallable.
  assert (generator_based dependency && false = false) as Hgen by apply andb_false_r.
  pose proof (Provide_init_returns dependency false sync_to_thread σ0 Hcallable Hgen)
    as Hinit. cbv zeta in Hinit.
  destruct (Provide_init_stores _ _ _ _ _ _ Hinit)
    as (p & Hp & _ & Huc & Hval & _ & _ & _ & _ & Hdep).
  pose proof (call_all_uncached (fresh (dom (heap σ0))) p calls _ Hp Huc) as Hcalls.
  eexists _, _, p. split; [exact Hinit|]. split; [exact Hp|].
  split; [exact Hval|]. split; [exact Hdep|]. split; [exact Hcalls|].
  rewrite Hcalls. cbn [snd trace].
  by rewrite invocations_app, invocations_calls.
Qed.

(** The first call of a cache-enabled provider whose slot is unset. *)
Lemma Provide_call_fills_cache self p f args (σ : state World) :
  heap σ !! self = Some p →
  Provide.use_cache p = true →
  Provide.value p = Empty →
  wraps_pure p f →
  Provide_call self args σ
  = (inr (f args),
     State (world σ) (<[self := Provide.set_value (f args) p]> (heap σ))
           (trace σ ++ [Invoked (Provide.dependency p) args])).
Proof.
  intros Hp Huc Hval Hpure. specialize (Hpure args (world σ)).
  unfold dependency_action, call_and_await in Hpure.
  unfold Provide_call. unfold_monad. rewrite Hp, Huc, Hval. simpl.
  assert (alter (Provide.set_value (f args)) self (heap σ)
          = <[self := Provide.set_value (f args) p]> (heap σ)) as Halter.
  { apply map_eq. intros i. destruct (decide (self = i)) as [->|Hne].
    - by rewrite lookup_alter_eq, lookup_insert_eq, Hp.
    - by rewrite lookup_alter_ne, lookup_insert_ne. }
  destruct (Provide.has_sync_callable p); simpl.
  - rewrite Hpure. simpl. by rewrite Halter.
  - destruct (py_call _ _ _) as [[e|c] w]; simpl; [done|].
    rewrite Hpure. simpl. by rewrite Halter.
Qed.

(** A call of a cache-enabled provider whose slot is set. *)
Lemma Provide_call_cached self p args (σ : state World) :
  heap σ !! self = Some p →
  Provide.use_cache p = true →
  Provide.value p ≠ Empty →
  Provide_call self args σ = (inr (Provide.value p), σ).
Proof.
  intros Hp Huc Hval. unfold Provide_call. unfold_monad. rewrite Hp, Huc.
  destruct (Provide.value p); done.
Qed.

(** C1.  A cache-enabled provider wrapping a pure [f] whose results are
    legal (not the sentinel [Empty]; [None] is legal): two invocations,
    with any keyword arguments, return the same value and leave the
    world alone; if the slot was unset the value is [f] of the first
    arguments and the two invocations add exactly one invocation of the
    dependency, if it was set they add none. *)
Theorem cached_provider_invokes_once self p f args1 args2 (σ : state World) :
  heap σ !! self = Some p →
  Provide.use_cache p = true →
  wraps_pure p f →
  legal_result (f args1) →
  ∃ v σ1 σ2,
    Provide_call self args1 σ = (inr v, σ1)
    ∧ Provide_call self args2 σ1 = (inr v, σ2)
    ∧ world σ2 = world σ
    ∧ (Provide.value p = Empty →
       v = f args1
       ∧ trace σ2 = trace σ ++ [Invoked (Provide.dependency p) args1]
       ∧ invocations (Provide.dependency p) (trace σ2)
         = S (invocations (Provide.dependency p) (trace σ)))
    ∧ (Provide.value p ≠ Empty → v = Provide.value p ∧ trace σ2 = trace σ).
Proof.
  intros Hp Huc Hpure Hlegal.
  destruct (decide (Provide.value p = Empty)) as [Hval|Hval].
  - pose proof (Provide_call_fills_cache self p f args1 σ Hp Huc Hval Hpure) as H1.
    set (σ1 := State (world σ) (<[self := Provide.set_value (f args1) p]> (heap σ))
                 (trace σ ++ [Invoked (Provide.dependency p) args1])) in H1.
    assert (Provide_call self args2 σ1 = (inr (f args1), σ1)) as H2.
    { apply (Provide_call_cached self (Provide.set_value (f args1) p));
        [apply lookup_insert_eq|done|done]. }
    exists (f args1), σ1, σ1. repeat split; try done.
    simpl. rewrite invocations_app, invocations_Invoked. lia.
  - eexists _, _, _. split; [by apply Provide_call_cached|].
    split; [by apply Provide_call_cached|]. done.
Qed.

(** Once both fields are resolved, [finalize] does nothing at all. *)
Lemma finalize_resolved self p a (σ : state World) :
  heap σ !! self = Some p →
  is_Some (Provide.parsed_fn_signature p) →
  is_Some (Provide.signature_model p) →
  finalize self a σ = (inr (), σ).
Proof.
  intros Hp [s Hs] [m Hm]. unfold finalize. unfold_monad.
  rewrite Hp, Hs. simpl. by rewrite Hp, Hm.
Qed.

(** A call of [finalize] that returns has resolved both fields. *)
Lemma finalize_resolves self a (σ σ1 : state World) :
  finalize self a σ = (inr (), σ1) →
  ∃ p1, heap σ1 !! self = Some p1
        ∧ is_Some (Provide.parsed_fn_signature p1)
        ∧ is_Some (Provide.signature_model p1).
Proof.
  unfold finalize. unfold_monad. intros H.
  destruct (heap σ !! self) as [p|] eqn:Hp; [|done].
  repeat (case_match; simplify_eq; simpl in *; try done).
  all: rewrite ?lookup_alter_eq in *; rewrite ?Hp in *; simpl in *; simplify_eq;
    simpl in *; eexists; (split; [done|]); simpl; eauto.
Qed.

(** C9.  [finalize] is idempotent: once one call has returned, both
    fields are resolved, and any further calls, with any arguments,
    return without changing the state at all; no attribute is
    reassigned and the signature system is not consulted again (the
    trace is the same). *)
Theorem finalize_idempotent self a (σ σ1 : state World) (calls : list FinalizeArgs.t) :
  finalize self a σ = (inr (), σ1) →
  (∃ p1, heap σ1 !! self = Some p1
         ∧ is_Some (Provide.parsed_fn_signature p1)
         ∧ is_Some (Provide.signature_model p1))
  ∧ finalize_each self calls σ1 = (inr (), σ1)
  ∧ finalize_each self (a :: calls) σ = finalize self a σ.
Proof.
  intros H. pose proof (finalize_resolves _ _ _ _ H) as (p1 & Hp1 & Hs & Hm).
  assert (finalize_each self calls σ1 = (inr (), σ1)) as Hrest.
  { induction calls as [|b rest IH]; [done|].
    simpl. unfold mbind, M_bind, bind.
    by rewrite (finalize_resolved self p1 b σ1 Hp1 Hs Hm). }
  split; [by exists p1|]. split; [done|].
  simpl. unfold mbind, M_bind, bind. by rewrite H, Hrest.
Qed.

(** A generator-based dependency is callable: it is a function, or a
    class. *)
Lemma generator_based_callable dependency :
  generator_based dependency = true → callable dependency = true.
Proof.
  unfold generator_based, entry_point.
  destruct dependency; simpl; try done.
Qed.

(** C4.  Constructing a provider with [use_cache=True] over a dependency
    that is generator-based (a generator or async generator function, or
    a class whose [__call__] is one) raises the configuration error,
    whatever [sync_to_thread] is, and stores nothing. *)
Theorem cached_generator_rejected dependency sync_to_thread (σ : state World) :
  generator_based dependency = true →
  Provide_init dependency true sync_to_thread σ
  = (inl (ImproperlyConfiguredException
            "Cannot cache generator dependency, consider using Lifespan Context instead."),
     σ).
Proof.
  intros Hgen. unfold Provide_init.
  rewrite (generator_based_callable _ Hgen). simpl.
  unfold generator_based, entry_point in Hgen. by rewrite Hgen.
Qed.

(** Where the offload request is ignored: an explicit [False], and a
    dependency that is not a class and is asynchronous already. *)
Lemma offload_declined dependency use_cache (σ σ' : state World) self :
  Provide_init dependency use_cache (Some false) σ = (inr self, σ') →
  ∃ p, heap σ' !! self = Some p
       ∧ Provide.dependency p = dependency
       ∧ Provide.has_sync_callable p
         = isclass dependency || negb (is_async_callable dependency).
Proof.
  intros H. destruct (Provide_init_stores _ _ _ _ _ _ H) as (p & Hp & ? & ? & ? & ? & ? & ? & ? & Hd).
  exists p. simpl in Hd. by destruct Hd.
Qed.

Lemma offload_ignored_for_async dependency use_cache sync_to_thread
    (σ σ' : state World) self :
  isclass dependency = false →
  is_async_callable dependency = true →
  Provide_init dependency use_cache sync_to_thread σ = (inr self, σ') →
  ∃ p, heap σ' !! self = Some p
       ∧ Provide.dependency p = dependency
       ∧ Provide.has_sync_callable p = false.
Proof.
  intros Hc Ha H.
  destruct (Provide_init_stores _ _ _ _ _ _ H) as (p & Hp & ? & ? & ? & ? & ? & ? & ? & Hd).
  exists p. rewrite Hc, Ha, andb_false_r in Hd. by destruct Hd.
Qed.

(** The offload request is honoured for every dependency classified as a
    synchronous callable, generator-based ones included. *)
Lemma offload_wraps_sync_callable dependency use_cache (σ σ' : state World) self :
  isclass dependency || negb (is_async_callable dependency) = true →
  Provide_init dependency use_cache (Some true) σ = (inr self, σ') →
  ∃ p, heap σ' !! self = Some p
       ∧ Provide.dependency p = ensure_async_callable self dependency
       ∧ Provide.has_sync_callable p = false.
Proof.
  intros Hs H.
  destruct (Provide_init_stores _ _ _ _ _ _ H) as (p & Hp & ? & ? & ? & ? & ? & ? & ? & Hd).
  exists p. rewrite Hs in Hd. by destruct Hd.
Qed.


End di_properties.

Section eq_properties.
Context {World : Type} {collab : Collaborators}.
Implicit Types (h : gmap nat Provide.t) (s o : Provide.t).

End eq_properties.

Section asgi_properties.
Context {World : Type} {collab : Collaborators} {user : UserCode World}.

(** C2.  Validation succeeds exactly when the inherited validation
    passes, the parsed return type is [None], the parsed parameters
    include [scope], [send] and [receive], and the function is
    asynchronous; a return type other than [None], any one missing
    parameter, or a function that is not asynchronous each makes it
    fail, with the configuration error whenever the inherited validation
    passes. *)
Theorem validate_handler_function_spec (self : ASGIRouteHandler.t) :
  let signature := handler_parsed_fn_signature self in
  let returns_None := is_subclass_of (ParsedSignature.return_type signature) NoneType in
  let declares key := is_Some (ParsedSignature.parameters signature !! key) in
  let is_async := is_async_callable (ASGIRouteHandler.fn self) in
  (_validate_handler_function self = inr ()
   ↔ base_validate_handler_function self = inr ()
     ∧ returns_None = true
     ∧ declares "scope" ∧ declares "send" ∧ declares "receive"
     ∧ is_async = true)
  ∧ (returns_None = false
     ∨ ¬ declares "scope" ∨ ¬ declares "send" ∨ ¬ declares "receive"
     ∨ is_async = false →
     ∃ e, _validate_handler_function self = inl e
          ∧ (base_validate_handler_function self = inr () →
             ∃ detail, e = ImproperlyConfiguredException detail)).
Proof.
  intros signature returns_None declares is_async.
  unfold _validate_handler_function.
  fold signature. fold returns_None. fold is_async.
  assert (∀ key, bool_decide (ParsedSignature.parameters signature !! key = None) = false
                 ↔ declares key) as Hdecl.
  { intros key. unfold declares. rewrite bool_decide_eq_false.
    by rewrite <- not_eq_None_Some. }
  assert (∀ key, bool_decide (ParsedSignature.parameters signature !! key = None) = true
                 ↔ ¬ declares key) as Hundecl.
  { intros key. rewrite <- Hdecl. by destruct (bool_decide _). }
  simpl existsb.
  destruct (base_validate_handler_function self) as [e|[]].
  { split; [split; [done|by intros [? _]]|]. intros _. by exists e. }
  destruct returns_None; simpl.
  2:{ split; [split; [done|by intros (_ & ? & _)]|]. intros _. eauto. }
  destruct (bool_decide (_ !! "scope" = None)) eqn:H1; simpl.
  { apply Hundecl in H1. split; [split; [done|by intros (_ & _ & ? & _)]|]. eauto. }
  destruct (bool_decide (_ !! "send" = None)) eqn:H2; simpl.
  { apply Hundecl in H2. split; [split; [done|by intros (_ & _ & _ & ? & _)]|]. eauto. }
  destruct (bool_decide (_ !! "receive" = None)) eqn:H3; simpl.
  { apply Hundecl in H3. split; [split; [done|by intros (_ & _ & _ & _ & ? & _)]|]. eauto. }
  apply Hdecl in H1, H2, H3.
  destruct is_async; simpl.
  - split; [done|]. intros [?|[?|[?|[?|?]]]]; done.
  - split; [split; [done|by intros (_ & _ & _ & _ & _ & ?)]|]. eauto.
Qed.

Lemma run_guards_pass gs connection w1 (σ : state World) :
  guards_pass connection gs (world σ) w1 →
  run_guards gs connection σ
  = (inr (), State w1 (heap σ) (trace σ ++ (GuardRan <$> gs))).
Proof.
  remember (world σ) as w eqn:Hw. intros Hpass. revert σ Hw.
  induction Hpass as [w|g gs w w1 w2 Hg _ IH]; intros σ ->; simpl.
  - unfold_monad. rewrite app_nil_r. by destruct σ.
  - unfold_monad. rewrite Hg. simpl.
    rewrite (IH (State w1 (heap σ) (trace σ ++ [GuardRan g])) eq_refl). simpl.
    by rewrite <- app_assoc.
Qed.

Lemma run_guards_fail pre g post connection w1 e w2 (σ : state World) :
  guards_pass connection pre (world σ) w1 →
  guard_authorize g connection w1 = (inl e, w2) →
  run_guards (pre ++ g :: post) connection σ
  = (inl e, State w2 (heap σ) (trace σ ++ (GuardRan <$> pre))).
Proof.
  remember (world σ) as w eqn:Hw. intros Hpass Hfail. revert σ Hw.
  induction Hpass as [w|g' gs w w1 w2' Hg _ IH]; intros σ ->; simpl.
  - unfold_monad. rewrite Hfail. simpl. by rewrite app_nil_r.
  - unfold_monad. rewrite Hg. simpl.
    rewrite (IH Hfail (State w1 (heap σ) (trace σ ++ [GuardRan g'])) eq_refl). simpl.
    by rewrite <- app_assoc.
Qed.

(** [handle] checks the guard sequence for emptiness only to skip an
    empty authorization. *)
Lemma handle_unfold self connection (σ : state World) :
  handle self connection σ
  = match run_guards (ASGIRouteHandler.guards self) connection σ with
    | (inl e, σ1) => (inl e, σ1)
    | (inr _, σ1) =>
        let '(r, w) := call_and_await (ASGIRouteHandler.fn self)
                         (transport_kwargs connection) (world σ1) in
        (discard r,
         State w (heap σ1)
           (trace σ1 ++ [Invoked (ASGIRouteHandler.fn self) (transport_kwargs connection)]))
    end.
Proof.
  unfold handle, authorize_connection, _resolve_guards, call_and_await.
  assert (∀ σ1 : state World,
    (c ← invoke (ASGIRouteHandler.fn self) (transport_kwargs connection);
     perform (py_await c);; mret ()) σ1
    = let '(r, w) := match py_call (ASGIRouteHandler.fn self)
                             (transport_kwargs connection) (world σ1) with
                     | (inr c, w') => py_await c w'
                     | (inl e, w') => (inl e, w')
                     end in
      (discard r,
       State w (heap σ1)
         (trace σ1 ++ [Invoked (ASGIRouteHandler.fn self) (transport_kwargs connection)])))
    as Hfn.
  { intros σ1. unfold_monad.
    destruct (py_call _ _ _) as [[e|c] w]; simpl; [done|].
    by destruct (py_await _ _) as [[e|v] w']. }
  destruct (ASGIRouteHandler.guards self) as [|g gs] eqn:Hgs.
  - change (run_guards [] connection σ) with (mret (M := M World) () σ).
    unfold mbind at 1. unfold M_bind, bind. unfold mret at 1. unfold M_ret, ret.
    apply Hfn.
  - unfold mbind at 1. unfold M_bind, bind.
    destruct (run_guards (g :: gs) connection σ) as [[e|[]] σ1]; [done|].
    apply Hfn.
Qed.

(** C3.  If every guard of the handler passes (in particular if there is
    none), [handle] invokes the handler function exactly once, after
    all guards have run to completion, with exactly the connection's
    [scope], [receive] and [send] as keyword arguments.  If a guard
    raises after the guards before it passed, [handle] raises that
    guard's error and the handler function is not invoked. *)
Theorem handle_guards_then_fn (self : ASGIRouteHandler.t) connection (σ : state World) :
  let fn := ASGIRouteHandler.fn self in
  let guards := ASGIRouteHandler.guards self in
  let named_arguments :=
    [("scope", Connection.scope connection);
     ("receive", Connection.receive connection);
     ("send", Connection.send connection)] in
  (∀ w1, guards_pass connection guards (world σ) w1 →
     let outcome := call_and_await fn named_arguments w1 in
     let trace' := trace σ ++ (GuardRan <$> guards) ++ [Invoked fn named_arguments] in
     handle self connection σ = (discard outcome.1, State outcome.2 (heap σ) trace')
     ∧ invocations fn trace' = S (invocations fn (trace σ)))
  ∧ (∀ pre g post w1 e w2,
       guards = pre ++ g :: post →
       guards_pass connection pre (world σ) w1 →
       guard_authorize g connection w1 = (inl e, w2) →
       let trace' := trace σ ++ (GuardRan <$> pre) in
       handle self connection σ = (inl e, State w2 (heap σ) trace')
       ∧ invocations fn trace' = invocations fn (trace σ)).
Proof.
  intros fn guards named_arguments. split.
  - intros w1 Hpass outcome trace'. split.
    + rewrite handle_unfold. fold guards. rewrite (run_guards_pass _ _ _ _ Hpass).
      simpl. fold fn.
      change (transport_kwargs connection) with named_arguments.
      fold outcome. destruct outcome as [r w]. simpl.
      unfold trace'. by rewrite <- app_assoc.
    + unfold trace'.
      rewrite !invocations_app, invocations_GuardRan, invocations_Invoked. lia.
  - intros pre g post w1 e w2 Hgs Hpass Hfail trace'. split.
    + rewrite handle_unfold. fold guards. rewrite Hgs.
      by rewrite (run_guards_fail _ _ _ _ _ _ _ _ Hpass Hfail).
    + unfold trace'. rewrite invocations_app, invocations_GuardRan. lia.
Qed.

Lemma dict_or_empty_default `{Countable K} {V} `{EqDecision V} (x : option (gmap K V)) :
  dict_or_empty x = default ∅ x.
Proof. destruct x as [d|]; simpl; [|done]. by case_bool_decide. Qed.

Lemma list_or_empty_default {A} (x : option (list A)) : list_or_empty x = default [] x.
Proof. by destruct x as [[|a l]|]. Qed.

Lemma dict_merge_child_wins `{Countable K} {V} (parent child : gmap K V) :
  child_wins parent child (dict_merge parent child).
Proof.
  intros k. unfold dict_merge. rewrite lookup_union.
  by destruct (child !! k), (parent !! k).
Qed.

(** C5.  [merge] leaves the child handler, the parent scope and every
    other stored handler as they were and stores a new handler: its
    paths are the parent's path joined with each path of the child,
    parent first, in the child's order; in its mappings the child's
    entries win over the parent's; its sequences are the parent's
    entries followed by the child's. *)
Theorem merge_combines_with_parent (self other : nat) (r r' : registry) (l : nat) :
  merge_at self other r = Some (l, r') →
  ∃ child parent merged,
    handlers r !! self = Some child ∧ routers r !! other = Some parent
    ∧ handlers r !! l = None ∧ handlers r' !! l = Some merged
    ∧ handlers r' !! self = Some child
    ∧ (∀ k, k ≠ l → handlers r' !! k = handlers r !! k)
    ∧ routers r' = routers r
    ∧ ASGIRouteHandler.paths merged
      = flat_map (λ fragment, (λ p, join_paths [fragment; p])
                                <$> ASGIRouteHandler.paths child)
          [Router.path parent]
    ∧ child_wins (default ∅ (Router.dependencies parent))
        (ASGIRouteHandler.dependencies child) (ASGIRouteHandler.dependencies merged)
    ∧ child_wins (default ∅ (Router.exception_handlers parent))
        (ASGIRouteHandler.exception_handlers child)
        (ASGIRouteHandler.exception_handlers merged)
    ∧ child_wins (default ∅ (Router.opt parent))
        (ASGIRouteHandler.opt child) (ASGIRouteHandler.opt merged)
    ∧ child_wins (Router.signature_namespace parent)
        (ASGIRouteHandler.signature_namespace child)
        (ASGIRouteHandler.signature_namespace merged)
    ∧ child_wins (default ∅ (Router.type_encoders parent))
        (ASGIRouteHandler.type_encoders child) (ASGIRouteHandler.type_encoders merged)
    ∧ child_wins (Router.parameters parent)
        (ASGIRouteHandler.parameters child) (ASGIRouteHandler.parameters merged)
    ∧ ASGIRouteHandler.guards merged
      = default [] (Router.guards parent) ++ ASGIRouteHandler.guards child
    ∧ ASGIRouteHandler.middleware merged
      = default [] (Router.middleware parent) ++ ASGIRouteHandler.middleware child
    ∧ ASGIRouteHandler.type_decoders merged
      = default [] (Router.type_decoders parent) ++ ASGIRouteHandler.type_decoders child.
Proof.
  unfold merge_at. intros H.
  destruct (handlers r !! self) as [child|] eqn:Hc; [|done].
  destruct (routers r !! other) as [parent|] eqn:Hp; [|done].
  simpl in H. simplify_eq.
  assert (handlers r !! fresh (dom (handlers r)) = None) as Hfresh.
  { apply not_elem_of_dom, is_fresh. }
  exists child, parent, (merge child parent). simpl.
  split; [done|]. split; [done|]. split; [done|].
  split; [apply lookup_insert_eq|].
  split. { rewrite lookup_insert_ne; [done|]. intros <-. congruence. }
  split. { intros k Hk. by rewrite lookup_insert_ne. }
  split; [done|].
  split. { by rewrite app_nil_r. }
  rewrite <- !dict_or_empty_default, <- !list_or_empty_default.
  repeat split; try done; try apply dict_merge_child_wins.
  case_bool_decide as Hopt; [rewrite <- Hopt at 1|]; apply dict_merge_child_wins.
Qed.
End asgi_properties.

(** * Worked examples on the sample runtime *)

Section examples.
Import Sample.

(** C1 at a dependency that returns [None]: the second call, with other
    arguments, returns the cached [None] and the function ran once. *)
Lemma cached_provider_invokes_once_witness :
  ∃ σ1 σ2,
    Provide_call 0 [] cached_none = (inr PyNone, σ1)
    ∧ Provide_call 0 [("x", PyInt 1)] σ1 = (inr PyNone, σ2)
    ∧ invocations none_f (trace σ2) = 1.
Proof.
  set (p := Provide.Build none_f false true false None None false true Empty).
  assert (wraps_pure p (λ _, PyNone)) as Hpure by (intros args w; reflexivity).
  assert (legal_result PyNone) as Hlegal by discriminate.
  destruct (cached_provider_invokes_once 0 p (λ _, PyNone) [] [("x", PyInt 1)]
              cached_none eq_refl eq_refl Hpure Hlegal)
    as (v & σ1 & σ2 & H1 & H2 & _ & Hunset & _).
  destruct (Hunset eq_refl) as (-> & _ & Hinv).
  exists σ1, σ2. split; [exact H1|]. split; [exact H2|]. exact Hinv.
Defined.

(** A dependency that returns the sentinel itself is run again by every
    call: the slot cannot tell its result from "unset". *)
Example sentinel_result_is_not_cached :
  trace ((Provide_call 0 [];; Provide_call 0 []) cached_unset).2
  = trace cached_unset ++ [Invoked empty_f []; Invoked empty_f []].
Proof. reflexivity. Qed.

Lemma uncached_provider_never_caches_witness :
  callable tick = true
  ∧ Provide_init tick false (Some false) σ0 = (inr 0, uncached_tick)
  ∧ call_all 0 [[]; [("x", PyInt 1)]] uncached_tick
    = ([inr (PyInt 0); inr (PyInt 1)],
       State 2 (heap uncached_tick)
         (trace uncached_tick ++ [Invoked tick []; Invoked tick [("x", PyInt 1)]])).
Proof.
  assert (callable tick = true) as Hcallable by reflexivity.
  assert (Provide_init tick false (Some false) σ0 = (inr 0, uncached_tick)) as Hrun
    by reflexivity.
  split; [exact Hcallable|]. split; [exact Hrun|].
  destruct (uncached_provider_never_caches tick (Some false) σ0
              [[]; [("x", PyInt 1)]] Hcallable)
    as (self & σ & p & Hinit & Hp & _ & _ & Hcalls & _).
  rewrite Hrun in Hinit. assert (self = 0) as -> by congruence.
  assert (σ = uncached_tick) as -> by congruence.
  assert (p = Provide.Build tick false true false None None false false Empty) as ->
    by (apply (inj Some); rewrite <- Hp; reflexivity).
  rewrite Hcalls. reflexivity.
Defined.

Lemma finalize_idempotent_witness :
  finalize 0 no_plugins async_provider = (inr (), (finalize 0 no_plugins async_provider).2)
  ∧ finalize_each 0 [no_plugins; no_plugins] (finalize 0 no_plugins async_provider).2
    = (inr (), (finalize 0 no_plugins async_provider).2).
Proof.
  split; [reflexivity|].
  apply (finalize_idempotent 0 no_plugins async_provider _ [no_plugins; no_plugins]).
  reflexivity.
Defined.

Lemma cached_generator_rejected_witness :
  generator_based GenService = true
  ∧ Provide_init GenService true (Some true) σ0
    = (inl (ImproperlyConfiguredException
              "Cannot cache generator dependency, consider using Lifespan Context instead."),
       σ0).
Proof.
  split; [reflexivity|].
  apply (cached_generator_rejected GenService (Some true) σ0). reflexivity.
Defined.

(** C6 on the code: an explicit offload request for a generator function
    is not ignored.  Without the request the provider keeps the function
    and classifies it as a synchronous callable; with it the provider
    warns, stores the adapter in place of the function and classifies
    itself as asynchronous. *)
Theorem generator_offload_request_not_ignored :
  let constructed sync_to_thread := (Provide_init gen_f false sync_to_thread σ0).2 in
  heap (constructed None) !! 0
  = Some (Provide.Build gen_f false true true None None false false Empty)
  ∧ heap (constructed (Some true)) !! 0
    = Some (Provide.Build (PyAdapter 0 gen_f) false false true None None true false Empty)
  ∧ trace (constructed (Some true)) = [Warned (SyncToThreadWithGenerator gen_f)].
Proof. repeat split; reflexivity. Qed.





Lemma validate_handler_function_spec_witness :
  _validate_handler_function (handler_of app []) = inr ()
  ∧ ∃ detail, _validate_handler_function (handler_of app_without_send [])
              = inl (ImproperlyConfiguredException detail).
Proof.
  split.
  - destruct (validate_handler_function_spec (handler_of app [])) as [Hiff _].
    apply Hiff. repeat split; try reflexivity; eexists; reflexivity.
  - destruct (validate_handler_function_spec (handler_of app_without_send []))
      as [_ Hfail].
    destruct Hfail as (e & He & Hkind).
    { right. right. left. intros [x Hx]. discriminate Hx. }
    destruct (Hkind eq_refl) as [detail ->]. exists detail. exact He.
Defined.

Lemma handle_guards_then_fn_witness :
  handle (handler_of app [allow; allow]) connection σ0
  = (inr (),
     State 0 ∅ [GuardRan allow; GuardRan allow;
                Invoked app [("scope", PyStr "scope"); ("receive", PyBuiltin "receive");
                             ("send", PyBuiltin "send")]])
  ∧ handle (handler_of app [allow; deny]) connection σ0
    = (inl (Raised (PyStr "NotAuthorizedException")), State 0 ∅ [GuardRan allow]).
Proof.
  assert (guard_authorize allow connection 0 = (inr (), 0)) as Hallow by reflexivity.
  assert (guard_authorize deny connection 0
          = (inl (Raised (PyStr "NotAuthorizedException")), 0)) as Hdeny by reflexivity.
  assert (guards_pass connection [allow] 0 0) as Hone.
  { apply (guards_pass_cons connection allow [] 0 0 0 Hallow). apply guards_pass_nil. }
  split.
  - destruct (handle_guards_then_fn (handler_of app [allow; allow]) connection σ0)
      as [Hpass _].
    destruct (Hpass 0 (guards_pass_cons connection allow [allow] 0 0 0 Hallow Hone))
      as [Hrun _].
    exact Hrun.
  - destruct (handle_guards_then_fn (handler_of app [allow; deny]) connection σ0)
      as [_ Hfail].
    destruct (Hfail [allow] deny [] 0 (Raised (PyStr "NotAuthorizedException")) 0
                eq_refl Hone Hdeny) as [Hrun _].
    exact Hrun.
Defined.

Lemma merge_combines_with_parent_witness :
  merge_at 0 0 registered = Some (1, merged_registry)
  ∧ ∃ merged, handlers merged_registry !! 1 = Some merged
              ∧ handlers merged_registry !! 0 = handlers registered !! 0
              ∧ ASGIRouteHandler.paths merged = ["/parent/child"]
              ∧ ASGIRouteHandler.opt merged !! "tag" = Some (PyStr "child")
              ∧ ASGIRouteHandler.opt merged !! "origin" = Some (PyStr "parent")
              ∧ ASGIRouteHandler.guards merged = [allow; deny].
Proof.
  assert (merge_at 0 0 registered = Some (1, merged_registry)) as Hmerge by reflexivity.
  split; [exact Hmerge|].
  destruct (merge_combines_with_parent 0 0 registered merged_registry 1 Hmerge)
    as (child & parent' & merged & Hc & Hp & _ & Hm & Hself & _ & _ & Hpaths
        & _ & _ & Hopt & _ & _ & _ & Hguards & _).
  assert (child = handler_of app [deny]) as ->
    by (apply (inj Some); rewrite <- Hc; reflexivity).
  assert (parent' = parent) as ->
    by (apply (inj Some); rewrite <- Hp; reflexivity).
  exists merged. split; [exact Hm|]. split; [by rewrite Hself, Hc|].
  split; [rewrite Hpaths; reflexivity|].
  split; [rewrite (Hopt "tag"); reflexivity|].
  split; [rewrite (Hopt "origin"); reflexivity|].
  rewrite Hguards. reflexivity.
Defined.
End examples.

(** * Further properties of [Provide] *)

Section di_more.
Context {World : Type} {collab : Collaborators} {user : UserCode World}.

(** X1.  Construction fails only with the configuration error, exactly
    when the dependency is not callable or is generator-based with caching
    requested, and then leaves the state as it was: nothing is stored and
    no warning is given.  When it succeeds the new provider sits at a
    location that was free, the providers already stored are untouched
    and the world is as before. *)
Theorem Provide_init_outcome dependency use_cache sync_to_thread (σ : state World) :
  match Provide_init dependency use_cache sync_to_thread σ with
  | (inl e, σ') =>
      σ' = σ
      ∧ (callable dependency = false
         ∨ (generator_based dependency = true ∧ use_cache = true))
      ∧ ∃ detail, e = ImproperlyConfiguredException detail
  | (inr self, σ') =>
      callable dependency = true
      ∧ (generator_based dependency = false ∨ use_cache = false)
      ∧ world σ' = world σ
      ∧ heap σ !! self = None
      ∧ is_Some (heap σ' !! self)
      ∧ ∀ l, l ≠ self → heap σ' !! l = heap σ !! l
  end.
Proof.
  destruct (callable dependency) eqn:Hcallable.
  2:{ unfold Provide_init. rewrite Hcallable. simpl. unfold_monad.
      split; [done|]. split; [by left|]. eauto. }
  destruct (generator_based dependency && use_cache) eqn:Hgen.
  { unfold Provide_init. rewrite Hcallable. simpl.
    unfold generator_based, entry_point in Hgen. rewrite Hgen. unfold_monad.
    apply andb_true_iff in Hgen as [Hg ->].
    split; [done|]. split; [right; by unfold generator_based, entry_point|]. eauto. }
  rewrite (Provide_init_returns _ _ sync_to_thread σ Hcallable Hgen). simpl.
  split; [done|]. split.
  { apply andb_false_iff in Hgen as [->| ->]; auto. }
  split; [done|]. split. { apply not_elem_of_dom, is_fresh. }
  split. { rewrite lookup_insert_eq. eauto. }
  intros l Hl. by rewrite lookup_insert_ne.
Qed.

(** X2.  A successful construction gives at most one warning, about the
    dependency it was given, and none at all exactly when an explicit
    [sync_to_thread] meets a synchronous callable that is not
    generator-based, or an omitted one meets a dependency that is
    generator-based or asynchronous. *)
Theorem Provide_init_warnings dependency use_cache sync_to_thread
    (σ σ' : state World) self :
  Provide_init dependency use_cache sync_to_thread σ = (inr self, σ') →
  let has_sync_callable := isclass dependency || negb (is_async_callable dependency) in
  ∃ ws : list warning, trace σ' = trace σ ++ (Warned <$> ws)
        ∧ (length ws ≤ 1)%nat
        ∧ (∀ w, w ∈ ws → warning_source w = dependency)
        ∧ (ws = [] ↔
           if sync_to_thread is Some _
           then generator_based dependency = false ∧ has_sync_callable = true
           else generator_based dependency = true ∨ has_sync_callable = false).
Proof.
  intros H has_sync_callable. subst has_sync_callable.
  destruct (Provide_init_passed _ _ _ _ _ _ H) as [Hcallable Hgen].
  rewrite (Provide_init_returns _ _ sync_to_thread σ Hcallable Hgen) in H.
  simplify_eq. simpl. clear Hgen.
  destruct sync_to_thread as [b|]; simpl.
  - destruct (generator_based dependency) eqn:Hg; simpl.
    + eexists [_]. split; [done|]. split; [simpl; lia|].
      split. { intros w Hw. apply list_elem_of_singleton in Hw. by subst. }
      split; [done|]. by intros [? _].
    + destruct (isclass dependency || negb (is_async_callable dependency)) eqn:Hs; simpl.
      * exists []. split; [done|]. split; [simpl; lia|].
        split; [by intros w Hw; apply elem_of_nil in Hw|]. done.
      * eexists [_]. split; [done|]. split; [simpl; lia|].
        split. { intros w Hw. apply list_elem_of_singleton in Hw. by subst. }
        split; [done|]. by intros [_ ?].
  - destruct (isclass dependency || negb (is_async_callable dependency)) eqn:Hs;
      destruct (generator_based dependency) eqn:Hg; simpl.
    + exists []. split; [done|]. split; [simpl; lia|].
      split; [by intros w Hw; apply elem_of_nil in Hw|]. split; auto.
    + eexists [_]. split; [done|]. split; [simpl; lia|].
      split. { intros w Hw. apply list_elem_of_singleton in Hw. by subst. }
      split; [done|]. by intros [?|?].
    + exists []. split; [done|]. split; [simpl; lia|].
      split; [by intros w Hw; apply elem_of_nil in Hw|]. split; auto.
    + exists []. split; [done|]. split; [simpl; lia|].
      split; [by intros w Hw; apply elem_of_nil in Hw|]. split; auto.
Qed.

(** A call that does not return from the cache: the outcome and the new
    world are those of the dependency, the call is logged, and the slot
    is written only if caching is on and the dependency returned. *)
Lemma Provide_call_runs self p args (σ : state World) :
  heap σ !! self = Some p →
  Provide.use_cache p = false ∨ Provide.value p = Empty →
  Provide_call self args σ
  = ((dependency_action p args (world σ)).1,
     State (dependency_action p args (world σ)).2
       (match (dependency_action p args (world σ)).1 with
        | inr v => if Provide.use_cache p
                   then <[self := Provide.set_value v p]> (heap σ)
                   else heap σ
        | inl _ => heap σ
        end)
       (trace σ ++ [Invoked (Provide.dependency p) args])).
Proof.
  intros Hp Hrun.
  assert (Provide.use_cache p && negb (is_Empty (Provide.value p)) = false) as Hcond.
  { destruct Hrun as [-> | ->]; [done|]. by rewrite andb_false_r. }
  assert (∀ v, alter (Provide.set_value v) self (heap σ)
               = <[self := Provide.set_value v p]> (heap σ)) as Halter.
  { intros v. apply map_eq. intros i. destruct (decide (self = i)) as [->|Hne].
    - by rewrite lookup_alter_eq, lookup_insert_eq, Hp.
    - by rewrite lookup_alter_ne, lookup_insert_ne. }
  unfold Provide_call, dependency_action, call_and_await. unfold_monad.
  rewrite Hp, Hcond.
  destruct (Provide.has_sync_callable p); simpl.
  - destruct (py_call _ _ _) as [[e|v] w]; simpl; [done|].
    destruct (Provide.use_cache p); simpl; by rewrite ?Halter.
  - destruct (py_call _ _ _) as [[e|c] w]; simpl; [done|].
    destruct (py_await _ _) as [[e|v] w']; simpl; [done|].
    destruct (Provide.use_cache p); simpl; by rewrite ?Halter.
Qed.

(** X3.  Offloading a dependency classified as a synchronous callable to
    a thread changes what the provider stores, not what it produces.
    Built from the same state with [sync_to_thread=False] and with
    [sync_to_thread=True], the two providers are stored with the same
    attributes except three: the dependency (the callable itself, or the
    adapter made for it), [has_sync_callable] (true, or false) and
    [sync_to_thread] (false, or true); and if the adapter is faithful,
    invoking either in the same world with the same arguments gives the
    same outcome and the same world. *)
Theorem offload_preserves_outcome dependency use_cache args (σ : state World) :
  callable dependency = true →
  generator_based dependency && use_cache = false →
  isclass dependency || negb (is_async_callable dependency) = true →
  adapter_faithful dependency →
  let is_async_generator := isasyncgenfunction (entry_point dependency) in
  let is_generator := isgeneratorfunction (entry_point dependency) in
  ∃ a σa b σb,
    Provide_init dependency use_cache (Some false) σ = (inr a, σa)
    ∧ Provide_init dependency use_cache (Some true) σ = (inr b, σb)
    ∧ heap σa !! a
      = Some (Provide.Build dependency is_async_generator true is_generator
                None None false use_cache Empty)
    ∧ heap σb !! b
      = Some (Provide.Build (ensure_async_callable b dependency) is_async_generator false
                is_generator None None true use_cache Empty)
    ∧ (Provide_call a args σa).1 = (Provide_call b args σb).1
    ∧ world (Provide_call a args σa).2 = world (Provide_call b args σb).2.
Proof.
  intros Hcallable Hgen Hs Hfaithful is_async_generator is_generator.
  pose proof (Provide_init_returns dependency use_cache (Some false) σ Hcallable Hgen) as Ha.
  pose proof (Provide_init_returns dependency use_cache (Some true) σ Hcallable Hgen) as Hb.
  cbv zeta in Ha, Hb. rewrite Hs in Ha, Hb. simpl in Ha, Hb.
  fold is_async_generator in Ha, Hb. fold is_generator in Ha, Hb.
  eexists _, _, _, _. split; [exact Ha|]. split; [exact Hb|].
  split; [apply lookup_insert_eq|]. split; [apply lookup_insert_eq|].
  erewrite (Provide_call_runs (fresh (dom (heap σ))) _ args (State _ _ _));
    [|apply lookup_insert_eq|by right].
  erewrite (Provide_call_runs (fresh (dom (heap σ))) _ args (State _ _ _));
    [|apply lookup_insert_eq|by right].
  unfold dependency_action. simpl. rewrite Hfaithful. done.
Qed.

(** X4.  An exception raised by the dependency propagates unchanged and
    is never cached: the store is exactly as before the call, so a
    cache-enabled provider whose slot was unset is still unset. *)
Theorem failed_invocation_not_cached self p args e w' (σ : state World) :
  heap σ !! self = Some p →
  Provide.use_cache p = false ∨ Provide.value p = Empty →
  dependency_action p args (world σ) = (inl e, w') →
  Provide_call self args σ
  = (inl e, State w' (heap σ) (trace σ ++ [Invoked (Provide.dependency p) args])).
Proof.
  intros Hp Hrun Hfail. rewrite (Provide_call_runs self p args σ Hp Hrun).
  by rewrite Hfail.
Qed.

(** X5.  Invoking a provider changes nothing in the store but, at most,
    its own cached-value slot: other providers and all its other
    attributes stay, no location is added or removed, the trace only
    grows; and the slot changes only when caching is on, the slot was
    unset and the call returned, to the very value returned. *)
Theorem Provide_call_frame self p args (σ : state World) :
  heap σ !! self = Some p →
  let result := (Provide_call self args σ).1 in
  let σ' := (Provide_call self args σ).2 in
  (∀ l, l ≠ self → heap σ' !! l = heap σ !! l)
  ∧ (∃ v, heap σ' !! self = Some (Provide.set_value v p)
          ∧ (v ≠ Provide.value p →
             Provide.use_cache p = true ∧ Provide.value p = Empty ∧ result = inr v))
  ∧ dom (heap σ') = dom (heap σ)
  ∧ trace σ `prefix_of` trace σ'.
Proof.
  intros Hp result σ'.
  assert (Provide.set_value (Provide.value p) p = p) as Hsame by (by destruct p).
  destruct (decide (Provide.use_cache p = false ∨ Provide.value p = Empty)) as [Hrun|Hcached].
  - subst result σ'. rewrite (Provide_call_runs self p args σ Hp Hrun). simpl.
    destruct (dependency_action p args (world σ)) as [[e|v] w]; simpl.
    + split; [done|]. split; [|split; [done|by apply prefix_app_r]].
      exists (Provide.value p). by rewrite Hsame.
    + destruct (Provide.use_cache p) eqn:Huc.
      * destruct Hrun as [?|Hval]; [done|].
        split; [by intros l Hl; rewrite lookup_insert_ne|].
        split; [|split; [|by apply prefix_app_r]].
        -- exists v. by rewrite lookup_insert_eq.
        -- apply dom_insert_lookup_L. by rewrite Hp.
      * split; [done|]. split; [|split; [done|by apply prefix_app_r]].
        exists (Provide.value p). by rewrite Hsame.
  - assert (Provide.use_cache p = true ∧ Provide.value p ≠ Empty) as [Huc Hval].
    { destruct (Provide.use_cache p); [|by destruct Hcached; left].
      split; [done|]. intros ?. destruct Hcached. by right. }
    subst result σ'. rewrite (Provide_call_cached self p args σ Hp Huc Hval). simpl.
    split; [done|]. split; [|done].
    exists (Provide.value p). by rewrite Hsame.
Qed.

(** X6.  Once a cache-enabled provider holds a value it is stable: any
    number of further invocations, with any arguments, all return that
    value and change neither store nor world nor trace; the dependency is
    not invoked again. *)
Theorem resolved_cache_is_stable self p calls (σ : state World) :
  heap σ !! self = Some p →
  Provide.use_cache p = true →
  Provide.value p ≠ Empty →
  call_all self calls σ = ((λ _, inr (Provide.value p)) <$> calls, σ).
Proof.
  intros Hp Huc Hval. induction calls as [|args rest IH]; [done|].
  simpl. rewrite (Provide_call_cached self p args σ Hp Huc Hval). by rewrite IH.
Qed.

(** X7.  The sentinel cannot be cached: a cache-enabled provider whose
    pure dependency returns [Empty] itself invokes it on every call and
    its slot stays unset. *)
Theorem sentinel_result_reinvoked self p f calls (σ : state World) :
  heap σ !! self = Some p →
  Provide.use_cache p = true →
  Provide.value p = Empty →
  wraps_pure p f →
  (∀ args, args ∈ calls → f args = Empty) →
  call_all self calls σ
  = ((λ _, inr Empty) <$> calls,
     State (world σ) (heap σ) (trace σ ++ (Invoked (Provide.dependency p) <$> calls))).
Proof.
  intros Hp Huc Hval Hpure. revert σ Hp.
  induction calls as [|args rest IH]; intros σ Hp Hres.
  - simpl. rewrite app_nil_r. by destruct σ.
  - simpl. rewrite (Provide_call_fills_cache self p f args σ Hp Huc Hval Hpure).
    rewrite (Hres args) by (by left).
    assert (<[self := Provide.set_value Empty p]> (heap σ) = heap σ) as Hheap.
    { apply insert_id. rewrite Hp. f_equal. destruct p; simpl in *. by subst. }
    rewrite Hheap.
    rewrite (IH (State (world σ) (heap σ) (trace σ ++ [Invoked (Provide.dependency p) args])));
      [|done|by intros a Ha; apply Hres; right].
    simpl. by rewrite <- app_assoc.
Qed.

(** X8.  [finalize], whether it returns or raises, touches nothing but the
    two metadata fields of its own provider: the world, the other
    providers and every other attribute stay, and a field that was
    resolved keeps its value. *)
Theorem finalize_frame self p a (σ : state World) :
  heap σ !! self = Some p →
  let σ' := (finalize self a σ).2 in
  world σ' = world σ
  ∧ (∀ l, l ≠ self → heap σ' !! l = heap σ !! l)
  ∧ ∃ s m, heap σ' !! self
           = Some (Provide.set_signature_model m (Provide.set_parsed_fn_signature s p))
           ∧ (is_Some (Provide.parsed_fn_signature p) → s = Provide.parsed_fn_signature p)
           ∧ (is_Some (Provide.signature_model p) → m = Provide.signature_model p).
Proof.
  intros Hp σ'. subst σ'.
  assert (∀ s m, Provide.parsed_fn_signature p = s → Provide.signature_model p = m →
            p = Provide.set_signature_model m (Provide.set_parsed_fn_signature s p)) as Heta.
  { intros s m <- <-. by destruct p. }
  destruct (finalize self a σ) as [r σ1] eqn:H. cbn [snd].
  revert H. unfold finalize. unfold_monad. intros H.
  destruct (heap σ !! self) as [p0|] eqn:Hp0; [|done]. simplify_eq.
  repeat (case_match; simplify_eq; simpl in *; try done).
  all: rewrite ?lookup_alter_eq in *; rewrite ?Hp0 in *; simpl in *; simplify_eq; simpl in *.
  all: split; [done|].
  all: split; [by intros ? ?; rewrite ?lookup_alter_ne by done|].
  all: rewrite ?lookup_alter_eq, ?Hp0; simpl.
  all: eexists _, _; (split; [f_equal; by apply Heta || (by destruct p) |]).
  all: split; intros [? ?]; simpl in *; try congruence.
  match goal with H : Provide.parsed_fn_signature _ = _ |- _ => exact H end.
Qed.

Lemma find_first {A} (f : A → bool) pre q post :
  (∀ x, x ∈ pre → f x = false) → f q = true → find f (pre ++ q :: post) = Some q.
Proof.
  intros Hpre Hq. induction pre as [|x pre IH]; simpl.
  - by rewrite Hq.
  - rewrite (Hpre x) by (by left). apply IH. intros y Hy. apply Hpre. by right.
Qed.

Lemma find_nowhere {A} (f : A → bool) (l : list A) :
  (∀ x, x ∈ l → f x = false) → find f l = None.
Proof.
  intros Hl. induction l as [|x l IH]; [done|]. simpl.
  rewrite (Hl x) by (by left). apply IH. intros y Hy. apply Hl. by right.
Qed.

Lemma alter_stored (f : Provide.t → Provide.t) self p (h : gmap nat Provide.t) :
  h !! self = Some p → alter f self h = <[self := f p]> h.
Proof.
  intros Hp. apply map_eq. intros i. destruct (decide (self = i)) as [->|Hne].
  - by rewrite lookup_alter_eq, lookup_insert_eq, Hp.
  - by rewrite lookup_alter_ne, lookup_insert_ne.
Qed.

(** X9.  A [finalize] that fails while the signature model is created,
    however the signature was obtained (from a plugin, from the default
    introspection, or in an earlier call), leaves the parsed signature
    stored and the model unset; a later [finalize] for which the model
    can be created does not parse again, whatever namespace or plugins it
    is given: it creates the model over that signature and returns. *)
Theorem failed_model_creation_keeps_signature self p a e (σ σ1 : state World) events :
  heap σ !! self = Some p →
  finalize self a σ = (inl e, σ1) →
  trace σ1 = trace σ ++ events →
  ModelCreated (Provide.dependency p) ∈ events →
  ∃ s, heap σ1 = <[self := Provide.set_parsed_fn_signature (Some s) p]> (heap σ)
       ∧ Provide.signature_model p = None
       ∧ (Provide.parsed_fn_signature p = None ∨ Provide.parsed_fn_signature p = Some s)
       ∧ create (FinalizeArgs.dependency_keys a) (Provide.dependency p) (Some s)
           (FinalizeArgs.data_dto a) (FinalizeArgs.type_decoders a) = inl e
       ∧ ∀ b m,
           create (FinalizeArgs.dependency_keys b) (Provide.dependency p) (Some s)
             (FinalizeArgs.data_dto b) (FinalizeArgs.type_decoders b) = inr m →
           finalize self b σ1
           = (inr (),
              State (world σ1)
                (<[self := Provide.set_signature_model (Some m)
                             (Provide.set_parsed_fn_signature (Some s) p)]> (heap σ))
                (trace σ1 ++ [ModelCreated (Provide.dependency p)])).
Proof.
  intros Hp Hfail Htrace Hevent.
  assert (∀ s, Provide.signature_model p = None →
            ∀ (σ2 : state World) b m,
              heap σ2 = <[self := Provide.set_parsed_fn_signature (Some s) p]> (heap σ) →
              create (FinalizeArgs.dependency_keys b) (Provide.dependency p) (Some s)
                (FinalizeArgs.data_dto b) (FinalizeArgs.type_decoders b) = inr m →
              finalize self b σ2
              = (inr (),
                 State (world σ2)
                   (<[self := Provide.set_signature_model (Some m)
                                (Provide.set_parsed_fn_signature (Some s) p)]> (heap σ))
                   (trace σ2 ++ [ModelCreated (Provide.dependency p)]))) as Hretry.
  { intros s Hm σ2 b m Hheap Hok. unfold finalize. unfold_monad.
    rewrite Hheap, lookup_insert_eq. simpl. rewrite ?Hheap, lookup_insert_eq. simpl.
    rewrite Hm, Hok. simpl. rewrite ?Hheap.
    rewrite (alter_stored _ _ (Provide.set_parsed_fn_signature (Some s) p))
      by apply lookup_insert_eq.
    by rewrite insert_insert_eq. }
  assert (∀ t : list event, trace σ ++ t = trace σ ++ events → t = events) as Hinv
    by (intros t; apply app_inv_head).
  unfold finalize in Hfail. unfold_monad. rewrite Hp in Hfail.
  destruct (Provide.parsed_fn_signature p) as [s0|] eqn:Hs.
  - rewrite Hp in Hfail. destruct (Provide.signature_model p) as [m0|] eqn:Hm; [done|].
    destruct (create _ _ _ _ _) as [e'|m1] eqn:Hcreate; [|done].
    simplify_eq. exists s0.
    assert (heap σ = <[self := Provide.set_parsed_fn_signature (Some s0) p]> (heap σ))
      as Hsame.
    { symmetry. apply insert_id. rewrite Hp. f_equal. by destruct p; simpl in *; subst. }
    split; [done|]. split; [done|]. split; [by right|]. split; [by rewrite <- Hs|].
    intros b m Hok. by apply (Hretry s0 eq_refl).
  - destruct (FinalizeArgs.plugins a) as [di|]; [destruct (find _ di) as [q|]|].
    + destruct (get_typed_init q _) as [e'|[signature hints]]; simpl in Hfail.
      { simplify_eq. rewrite <- (app_nil_r (trace σ1)) in Htrace at 1.
        apply Hinv in Htrace. subst. by apply elem_of_nil in Hevent. }
      destruct (from_signature signature hints) as [e'|s]; simpl in Hfail.
      { simplify_eq. simpl in Htrace. apply Hinv in Htrace. subst.
        apply list_elem_of_singleton in Hevent. done. }
      rewrite lookup_alter_eq, Hp in Hfail. simpl in Hfail.
      destruct (Provide.signature_model p) as [m0|] eqn:Hm; [done|].
      destruct (create _ _ _ _ _) as [e'|m1] eqn:Hcreate; [|done].
      simplify_eq. exists s. simpl.
      rewrite (alter_stored _ _ _ _ Hp).
      split; [done|]. split; [done|]. split; [by left|]. split; [done|].
      intros b m Hok.
      match goal with
      | |- finalize _ _ ?st = _ => exact (Hretry s eq_refl st b m eq_refl Hok)
      end.
    + destruct (from_fn _ _) as [e'|s]; simpl in Hfail.
      { simplify_eq. simpl in Htrace. apply Hinv in Htrace. subst.
        apply list_elem_of_singleton in Hevent. done. }
      rewrite lookup_alter_eq, Hp in Hfail. simpl in Hfail.
      destruct (Provide.signature_model p) as [m0|] eqn:Hm; [done|].
      destruct (create _ _ _ _ _) as [e'|m1] eqn:Hcreate; [|done].
      simplify_eq. exists s. simpl.
      rewrite (alter_stored _ _ _ _ Hp).
      split; [done|]. split; [done|]. split; [by left|]. split; [done|].
      intros b m Hok.
      match goal with
      | |- finalize _ _ ?st = _ => exact (Hretry s eq_refl st b m eq_refl Hok)
      end.
    + destruct (from_fn _ _) as [e'|s]; simpl in Hfail.
      { simplify_eq. simpl in Htrace. apply Hinv in Htrace. subst.
        apply list_elem_of_singleton in Hevent. done. }
      rewrite lookup_alter_eq, Hp in Hfail. simpl in Hfail.
      destruct (Provide.signature_model p) as [m0|] eqn:Hm; [done|].
      destruct (create _ _ _ _ _) as [e'|m1] eqn:Hcreate; [|done].
      simplify_eq. exists s. simpl.
      rewrite (alter_stored _ _ _ _ Hp).
      split; [done|]. split; [done|]. split; [by left|]. split; [done|].
      intros b m Hok.
      match goal with
      | |- finalize _ _ ?st = _ => exact (Hretry s eq_refl st b m eq_refl Hok)
      end.
Qed.

(** X10.  Among the plugins of the registry the first one, in order, that
    is a [DIPlugin] and has a typed constructor for the unwrapped
    dependency supplies the signature: what it returns is parsed and
    stored, whatever the later plugins or the default introspection would
    have said. *)
Theorem first_matching_plugin_wins self p a pre q post signature hints s
    (σ : state World) :
  let dependency := unwrap_partial (Provide.dependency p) in
  heap σ !! self = Some p →
  Provide.parsed_fn_signature p = None →
  FinalizeArgs.plugins a = Some (pre ++ q :: post) →
  (∀ x, x ∈ pre → is_DIPlugin x && has_typed_init x dependency = false) →
  is_DIPlugin q && has_typed_init q dependency = true →
  get_typed_init q dependency = inr (signature, hints) →
  from_signature signature hints = inr s →
  ∃ p', heap (finalize self a σ).2 !! self = Some p'
        ∧ Provide.parsed_fn_signature p' = Some s.
Proof.
  intros dependency Hp Hs Hplug Hpre Hq Hget Hfrom. subst dependency.
  unfold finalize. unfold_monad. rewrite Hp, Hs, Hplug.
  rewrite (find_first _ pre q post Hpre Hq).
  rewrite Hget. simpl. rewrite Hfrom. simpl.
  rewrite lookup_alter_eq, Hp. simpl.
  destruct (Provide.signature_model p); simpl.
  - rewrite lookup_alter_eq, Hp. simpl. eauto.
  - destruct (create _ _ _ _ _); simpl.
    + rewrite lookup_alter_eq, Hp. simpl. eauto.
    + rewrite !lookup_alter_eq, Hp. simpl. eauto.
Qed.

(** X11.  When no registry is given, or no plugin of the registry claims
    the dependency, the signature is parsed from the unwrapped dependency
    with the namespace given.  If that parse raises, [finalize] raises
    the same error, the provider is left exactly as it was and the
    signature model is not attempted. *)
Theorem default_introspection self p a (σ : state World) :
  let dependency := unwrap_partial (Provide.dependency p) in
  heap σ !! self = Some p →
  Provide.parsed_fn_signature p = None →
  (∀ di x, FinalizeArgs.plugins a = Some di → x ∈ di →
           is_DIPlugin x && has_typed_init x dependency = false) →
  match from_fn dependency (FinalizeArgs.signature_namespace a) with
  | inl e =>
      finalize self a σ
      = (inl e, State (world σ) (heap σ) (trace σ ++ [SignatureParsed dependency]))
  | inr s =>
      ∃ p', heap (finalize self a σ).2 !! self = Some p'
            ∧ Provide.parsed_fn_signature p' = Some s
  end.
Proof.
  intros dependency Hp Hs Hnone. subst dependency.
  assert (match FinalizeArgs.plugins a with
          | Some di => find (λ q, is_DIPlugin q
                                  && has_typed_init q (unwrap_partial (Provide.dependency p))) di
          | None => None
          end = None) as Hfind.
  { destruct (FinalizeArgs.plugins a) as [di|] eqn:Hdi; [|done].
    apply find_nowhere. intros x Hx. by apply (Hnone di). }
  unfold finalize. unfold_monad. rewrite Hp, Hs, Hfind.
  destruct (from_fn _ _) as [e|s]; simpl; [done|].
  rewrite lookup_alter_eq, Hp. simpl.
  destruct (Provide.signature_model p); simpl.
  - rewrite lookup_alter_eq, Hp. simpl. eauto.
  - destruct (create _ _ _ _ _); simpl.
    + rewrite lookup_alter_eq, Hp. simpl. eauto.
    + rewrite !lookup_alter_eq, Hp. simpl. eauto.
Qed.
End di_more.

Section eq_more.
Implicit Types (h : gmap nat Provide.t).

Lemma Provide_eq_stored h a b pa pb :
  h !! a = Some pa → h !! b = Some pb →
  Provide_eq h a (PyRef b) = true
  ↔ b = a ∨ (Provide.dependency pb = Provide.dependency pa
             ∧ Provide.use_cache pb = Provide.use_cache pa
             ∧ Provide.value pb = Provide.value pa).
Proof.
  intros Ha Hb. unfold Provide_eq, py_eq. rewrite Ha, Hb.
  rewrite orb_true_iff, !andb_true_iff, !bool_decide_eq_true, eqb_true_iff.
  split; intros [H|H]; [left; congruence|right; tauto|left; congruence|right; tauto].
Qed.

Lemma Provide_eq_true h a b :
  Provide_eq h a (PyRef b) = true
  ↔ b = a ∨ ∃ pa pb, h !! a = Some pa ∧ h !! b = Some pb
                      ∧ Provide.dependency pb = Provide.dependency pa
                      ∧ Provide.use_cache pb = Provide.use_cache pa
                      ∧ Provide.value pb = Provide.value pa.
Proof.
  destruct (h !! a) as [pa|] eqn:Ha; destruct (h !! b) as [pb|] eqn:Hb.
  - rewrite (Provide_eq_stored h a b pa pb Ha Hb). split; intros [?|H]; auto.
    + right. by exists pa, pb.
    + right. destruct H as (? & ? & ? & ? & ?). by simplify_eq.
  - unfold Provide_eq. rewrite Ha, Hb, orb_false_r, bool_decide_eq_true.
    split; [intros ?; left; congruence|]. intros [->|(? & ? & ? & ? & _)]; done.
  - unfold Provide_eq. rewrite Ha, orb_false_r, bool_decide_eq_true.
    split; [intros ?; left; congruence|]. intros [->|(? & ? & ? & _)]; done.
  - unfold Provide_eq. rewrite Ha, orb_false_r, bool_decide_eq_true.
    split; [intros ?; left; congruence|]. intros [->|(? & ? & ? & _)]; done.
Qed.

(** X12.  [__eq__] is an equivalence on providers: every provider equals
    itself, the answer does not depend on which of two providers is asked,
    and equality is transitive.  An object that is not a provider is
    never equal to one. *)
Theorem Provide_eq_equivalence h a b c :
  Provide_eq h a (PyRef a) = true
  ∧ Provide_eq h a (PyRef b) = Provide_eq h b (PyRef a)
  ∧ (Provide_eq h a (PyRef b) = true → Provide_eq h b (PyRef c) = true →
     Provide_eq h a (PyRef c) = true)
  ∧ ∀ other, (∀ l, other ≠ PyRef l) → Provide_eq h a other = false.
Proof.
  split; [apply Provide_eq_true; by left|]. split; [|split].
  - apply eq_true_iff_eq. rewrite !Provide_eq_true.
    split; (intros [->|(p1 & p2 & ? & ? & ? & ? & ?)]; [by left|]);
      right; exists p2, p1; by repeat split.
  - rewrite !Provide_eq_true.
    intros [->|(pa & pb & Ha & Hb & ? & ? & ?)]; [done|].
    intros [->|(pb' & pc & Hb' & Hc & ? & ? & ?)]; [right; exists pa, pb; by repeat split|].
    simplify_eq. right. exists pa, pc. repeat split; try done; congruence.
  - intros other Hother. unfold Provide_eq.
    rewrite bool_decide_eq_false_2 by apply Hother.
    destruct other; try done. by destruct (Hother l).
Qed.
End eq_more.

Section eq_after_call.
Context {World : Type} {collab : Collaborators} {user : UserCode World}.

(** X13.  Equality follows the cache.  Two distinct cache-enabled
    providers over the same pure dependency, both unresolved, are equal;
    once one of them has been invoked they are unequal; once the other
    has been invoked with the same arguments they are equal again. *)
Theorem equal_until_one_resolves a b pa pb f args (σ : state World) :
  a ≠ b →
  heap σ !! a = Some pa → heap σ !! b = Some pb →
  Provide.dependency pb = Provide.dependency pa →
  Provide.use_cache pa = true → Provide.use_cache pb = true →
  Provide.value pa = Empty → Provide.value pb = Empty →
  wraps_pure pa f → wraps_pure pb f →
  legal_result (f args) →
  let σ1 := (Provide_call a args σ).2 in
  let σ2 := (Provide_call b args σ1).2 in
  Provide_eq (heap σ) a (PyRef b) = true
  ∧ Provide_eq (heap σ1) a (PyRef b) = false
  ∧ Provide_eq (heap σ2) a (PyRef b) = true.
Proof.
  intros Hne Ha Hb Hdep Hua Hub Hva Hvb Hpa Hpb Hlegal σ1 σ2.
  subst σ2 σ1.
  rewrite (Provide_call_fills_cache a pa f args σ Ha Hua Hva Hpa). cbn [snd].
  set (σ1 := State _ _ _).
  assert (heap σ1 !! a = Some (Provide.set_value (f args) pa)) as Ha1
    by apply lookup_insert_eq.
  assert (heap σ1 !! b = Some pb) as Hb1 by (by simpl; rewrite lookup_insert_ne).
  rewrite (Provide_call_fills_cache b pb f args σ1 Hb1 Hub Hvb Hpb). cbn [snd heap].
  split; [|split].
  - apply (Provide_eq_stored _ a b pa pb Ha Hb). right. by rewrite Hva, Hvb, Hua, Hub.
  - apply not_true_is_false.
    rewrite (Provide_eq_stored _ a b _ pb Ha1 Hb1). simpl.
    intros [?|(_ & _ & Hval)]; [done|]. rewrite Hvb in Hval. by destruct Hlegal.
  - apply (Provide_eq_stored _ a b (Provide.set_value (f args) pa)
             (Provide.set_value (f args) pb)).
    + rewrite lookup_insert_ne by done. apply lookup_insert_eq.
    + apply lookup_insert_eq.
    + right. simpl. by rewrite Hua, Hub.
Qed.
End eq_after_call.

(** * Further properties of [ASGIRouteHandler] *)

Section asgi_more.
Context {World : Type} {collab : Collaborators} {user : UserCode World}.

(** X14.  Validation reports the first defect in a fixed order: an error
    of the inherited validation before anything else, then the return
    type, then the missing parameters, then the function not being
    asynchronous; each later message is given only if all earlier checks
    passed. *)
Theorem validation_error_precedence (self : ASGIRouteHandler.t) :
  let signature := handler_parsed_fn_signature self in
  let returns_None := is_subclass_of (ParsedSignature.return_type signature) NoneType in
  let declares key := is_Some (ParsedSignature.parameters signature !! key) in
  let is_async := is_async_callable (ASGIRouteHandler.fn self) in
  (∀ e, base_validate_handler_function self = inl e →
        _validate_handler_function self = inl e)
  ∧ (base_validate_handler_function self = inr () →
     (returns_None = false →
      _validate_handler_function self
      = inl (ImproperlyConfiguredException "ASGI handler functions should return 'None'"))
     ∧ (returns_None = true →
        ¬ (declares "scope" ∧ declares "send" ∧ declares "receive") →
        _validate_handler_function self
        = inl (ImproperlyConfiguredException
                 "ASGI handler functions should define 'scope', 'send' and 'receive' arguments"))
     ∧ (returns_None = true →
        declares "scope" ∧ declares "send" ∧ declares "receive" →
        is_async = false →
        _validate_handler_function self
        = inl (ImproperlyConfiguredException
                 "Functions decorated with 'asgi' must be async functions"))).
Proof.
  intros signature returns_None declares is_async.
  unfold _validate_handler_function.
  fold signature. fold returns_None. fold is_async.
  assert (∀ key, bool_decide (ParsedSignature.parameters signature !! key = None) = false
                 ↔ declares key) as Hdecl.
  { intros key. unfold declares. rewrite bool_decide_eq_false.
    by rewrite <- not_eq_None_Some. }
  split. { by intros e ->. }
  intros ->. split; [by intros ->|]. split.
  - intros -> Hmissing. simpl.
    destruct (bool_decide (_ !! "scope" = None)) eqn:H1; [done|].
    destruct (bool_decide (_ !! "send" = None)) eqn:H2; [done|].
    destruct (bool_decide (_ !! "receive" = None)) eqn:H3; [done|].
    destruct Hmissing. by rewrite <- !Hdecl.
  - intros -> (H1 & H2 & H3) ->. simpl.
    apply Hdecl in H1, H2, H3. by rewrite H1, H2, H3.
Qed.



Lemma guards_pass_app connection gs1 gs2 (w w1 w2 : World) :
  guards_pass connection gs1 w w1 →
  guards_pass connection gs2 w1 w2 →
  guards_pass connection (gs1 ++ gs2) w w2.
Proof.
  induction 1 as [|g gs wa wb wc Hg _ IH]; intros H2; [done|].
  simpl. eapply guards_pass_cons; [done|]. by apply IH.
Qed.

(** X16.  After [merge] the scope's guards come first at dispatch: if
    they and then the handler's own guards pass, the handler's own
    function is invoked once, after all of them; if a guard of the scope
    raises, none of the handler's own guards runs and the function is not
    invoked. *)
Theorem merged_handler_runs_parent_guards_first
    (child : ASGIRouteHandler.t) (parent : Router.t) connection (σ : state World) :
  let merged := merge child parent in
  let fn := ASGIRouteHandler.fn child in
  let parent_guards := default [] (Router.guards parent) in
  (∀ w1 w2,
     guards_pass connection parent_guards (world σ) w1 →
     guards_pass connection (ASGIRouteHandler.guards child) w1 w2 →
     let outcome := call_and_await fn (transport_kwargs connection) w2 in
     handle merged connection σ
     = (discard outcome.1,
        State outcome.2 (heap σ)
          (trace σ ++ (GuardRan <$> parent_guards)
           ++ (GuardRan <$> ASGIRouteHandler.guards child)
           ++ [Invoked fn (transport_kwargs connection)])))
  ∧ (∀ pre g post w1 e w2,
       parent_guards = pre ++ g :: post →
       guards_pass connection pre (world σ) w1 →
       guard_authorize g connection w1 = (inl e, w2) →
       handle merged connection σ
       = (inl e, State w2 (heap σ) (trace σ ++ (GuardRan <$> pre)))).
Proof.
  intros merged fn parent_guards.
  assert (ASGIRouteHandler.guards merged
          = parent_guards ++ ASGIRouteHandler.guards child) as Hguards.
  { subst merged parent_guards. simpl. by rewrite list_or_empty_default. }
  split.
  - intros w1 w2 Hp Hc outcome. rewrite handle_unfold, Hguards.
    rewrite (run_guards_pass _ _ w2 _ (guards_pass_app _ _ _ _ _ _ Hp Hc)). simpl.
    fold fn. fold outcome. destruct outcome as [r w]. simpl.
    by rewrite fmap_app, <- !app_assoc.
  - intros pre g post w1 e w2 Hsplit Hp Hfail. rewrite handle_unfold, Hguards, Hsplit.
    rewrite <- app_assoc. simpl.
    by rewrite (run_guards_fail _ _ _ _ _ _ _ _ Hp Hfail).
Qed.

(** X17.  Merging into an inner scope and then into an outer one nests:
    each path is joined to the inner path and the result to the outer
    path; the guards are the outer scope's, then the inner scope's, then
    the handler's own; a key of the options or of the dependencies is
    looked up in the handler first, then in the inner scope, then in the
    outer one; function, name and mount flag are the handler's own. *)
Theorem nested_merge (child : ASGIRouteHandler.t) (inner outer : Router.t) :
  let merged := merge (merge child inner) outer in
  let nearest {V} (c i o : option V) : option V :=
    match c with Some v => Some v | None => match i with Some v => Some v | None => o end end in
  ASGIRouteHandler.paths merged
  = (λ p, join_paths [Router.path outer; join_paths [Router.path inner; p]])
      <$> ASGIRouteHandler.paths child
  ∧ ASGIRouteHandler.guards merged
    = default [] (Router.guards outer) ++ default [] (Router.guards inner)
      ++ ASGIRouteHandler.guards child
  ∧ (∀ k, ASGIRouteHandler.opt merged !! k
          = nearest (ASGIRouteHandler.opt child !! k)
              (default ∅ (Router.opt inner) !! k) (default ∅ (Router.opt outer) !! k))
  ∧ (∀ k, ASGIRouteHandler.dependencies merged !! k
          = nearest (ASGIRouteHandler.dependencies child !! k)
              (default ∅ (Router.dependencies inner) !! k)
              (default ∅ (Router.dependencies outer) !! k))
  ∧ ASGIRouteHandler.fn merged = ASGIRouteHandler.fn child
  ∧ ASGIRouteHandler.name merged = ASGIRouteHandler.name child
  ∧ ASGIRouteHandler.is_mount merged = ASGIRouteHandler.is_mount child.
Proof.
  intros merged nearest. subst merged nearest. simpl.
  rewrite !list_or_empty_default, !dict_or_empty_default.
  split. { by rewrite <- list_fmap_compose. }
  split; [done|]. split; [|split; [|done]].
  - intros k. unfold dict_merge.
    assert (∀ m : gmap string pyobj,
              (if bool_decide (m = ∅) then ∅ else m) = m) as Hor.
    { intros m. by case_bool_decide. }
    rewrite !Hor, !lookup_union.
    by destruct (ASGIRouteHandler.opt child !! k),
                (default ∅ (Router.opt inner) !! k), (default ∅ (Router.opt outer) !! k).
  - intros k. unfold dict_merge. rewrite !lookup_union.
    by destruct (ASGIRouteHandler.dependencies child !! k),
                (default ∅ (Router.dependencies inner) !! k),
                (default ∅ (Router.dependencies outer) !! k).
Qed.

(** X18.  Merging into a scope that configures nothing keeps every
    mapping and every sequence of the handler, its function, its name and
    its mount flag.  What the merged handler takes from the scope is the
    path prefix (each path is joined to the scope's path), the scope's
    [signature_types], and the scope's [dto] and [return_dto] as defaults
    for the handler's own. *)
Theorem merge_into_bare_scope (child : ASGIRouteHandler.t) (parent : Router.t) :
  configures_nothing parent →
  let merged := merge child parent in
  ASGIRouteHandler.dependencies merged = ASGIRouteHandler.dependencies child
  ∧ ASGIRouteHandler.exception_handlers merged = ASGIRouteHandler.exception_handlers child
  ∧ ASGIRouteHandler.guards merged = ASGIRouteHandler.guards child
  ∧ ASGIRouteHandler.middleware merged = ASGIRouteHandler.middleware child
  ∧ ASGIRouteHandler.opt merged = ASGIRouteHandler.opt child
  ∧ ASGIRouteHandler.signature_namespace merged = ASGIRouteHandler.signature_namespace child
  ∧ ASGIRouteHandler.type_decoders merged = ASGIRouteHandler.type_decoders child
  ∧ ASGIRouteHandler.type_encoders merged = ASGIRouteHandler.type_encoders child
  ∧ ASGIRouteHandler.parameters merged = ASGIRouteHandler.parameters child
  ∧ length (ASGIRouteHandler.paths merged) = length (ASGIRouteHandler.paths child)
  ∧ ASGIRouteHandler.paths merged
    = (λ p, join_paths [Router.path parent; p]) <$> ASGIRouteHandler.paths child
  ∧ ASGIRouteHandler.fn merged = ASGIRouteHandler.fn child
  ∧ ASGIRouteHandler.name merged = ASGIRouteHandler.name child
  ∧ ASGIRouteHandler.is_mount merged = ASGIRouteHandler.is_mount child
  ∧ ASGIRouteHandler.signature_types merged = Router.signature_types parent
  ∧ ASGIRouteHandler.dto merged
    = value_or_default (ASGIRouteHandler.dto child) (Router.dto parent)
  ∧ ASGIRouteHandler.return_dto merged
    = value_or_default (ASGIRouteHandler.return_dto child) (Router.return_dto parent).
Proof.
  intros (Hd & He & Hg & Hm & Ho & Hn & Htd & Hte & Hp) merged. subst merged. simpl.
  rewrite !list_or_empty_default, !dict_or_empty_default.
  rewrite Hd, He, Hg, Hm, Ho, Hn, Htd, Hte, Hp. unfold dict_merge.
  rewrite !(right_id_L ∅ (∪)). simpl.
  repeat split; try done.
  - by case_bool_decide.
  - by rewrite length_fmap.
Qed.

(** X19.  The decorator is a plain factory.  With the standard handler
    class the handler it returns wraps the decorated function itself and
    carries the guards given to the decorator: if they pass, dispatch
    invokes the decorated function once, with exactly the keyword
    arguments [scope], [receive] and [send] bound to the connection's
    scope, receive channel and send channel; the handler keeps the mount
    flag given to the decorator, and without a path it is routed at
    [/]. *)
Theorem asgi_decorated_dispatch path exception_handlers guards name opt is_mount
    signature_namespace kwargs (fn : pyobj) connection (σ : state World) w1 :
  let handler := asgi path exception_handlers guards name opt is_mount
                   signature_namespace ASGIRouteHandler_init kwargs fn in
  let named_arguments := [("scope", Connection.scope connection);
                          ("receive", Connection.receive connection);
                          ("send", Connection.send connection)] in
  guards_pass connection (default [] guards) (world σ) w1 →
  let outcome := call_and_await fn named_arguments w1 in
  handle handler connection σ
  = (discard outcome.1,
     State outcome.2 (heap σ)
       (trace σ ++ (GuardRan <$> default [] guards) ++ [Invoked fn named_arguments]))
  ∧ ASGIRouteHandler.fn handler = fn
  ∧ ASGIRouteHandler.guards handler = default [] guards
  ∧ ASGIRouteHandler.is_mount handler = is_mount
  ∧ (path = None → ASGIRouteHandler.paths handler = ["/"]).
Proof.
  intros handler named_arguments Hpass outcome.
  split; [|split; [done|split; [done|split; [done|by intros ->]]]].
  rewrite handle_unfold.
  change (ASGIRouteHandler.guards handler) with (default [] guards).
  rewrite (run_guards_pass _ _ _ _ Hpass). simpl.
  change (ASGIRouteHandler.fn handler) with fn.
  change (transport_kwargs connection) with named_arguments. fold outcome.
  destruct outcome as [r w]. simpl. by rewrite <- app_assoc.
Qed.
End asgi_more.

(** * More worked examples *)

Section more_examples.
Import Sample.

Lemma Provide_init_warnings_witness :
  Provide_init tick false (Some false) σ0 = (inr 0, uncached_tick)
  ∧ trace uncached_tick = trace σ0.
Proof.
  assert (Provide_init tick false (Some false) σ0 = (inr 0, uncached_tick)) as Hinit
    by reflexivity.
  split; [exact Hinit|].
  destruct (Provide_init_warnings tick false (Some false) σ0 uncached_tick 0 Hinit)
    as (ws & Htrace & _ & _ & Hsilent).
  assert (ws = []) as -> by (apply Hsilent; split; reflexivity).
  rewrite Htrace. reflexivity.
Defined.

Lemma offload_preserves_outcome_witness :
  heap (Provide_init plain_f true (Some false) σ0).2 !! 0
  = Some (Provide.Build plain_f false true false None None false true Empty)
  ∧ heap (Provide_init plain_f true (Some true) σ0).2 !! 0
    = Some (Provide.Build (PyAdapter 0 plain_f) false false false None None true true Empty)
  ∧ (Provide_call 0 [("x", PyInt 1)] (Provide_init plain_f true (Some false) σ0).2).1
    = (Provide_call 0 [("x", PyInt 1)] (Provide_init plain_f true (Some true) σ0).2).1.
Proof.
  assert (adapter_faithful plain_f) as Hfaithful by (intros ident args w; reflexivity).
  assert (callable plain_f = true) as Hcallable by reflexivity.
  assert (generator_based plain_f && true = false) as Hgen by reflexivity.
  assert (isclass plain_f || negb (is_async_callable plain_f) = true) as Hsync
    by reflexivity.
  destruct (offload_preserves_outcome plain_f true [("x", PyInt 1)] σ0
              Hcallable Hgen Hsync Hfaithful)
    as (a & σa & b & σb & Ha & Hb & Hpa & Hpb & Hsame & _).
  assert (Provide_init plain_f true (Some false) σ0
          = (inr 0, (Provide_init plain_f true (Some false) σ0).2)) as Hra by reflexivity.
  assert (Provide_init plain_f true (Some true) σ0
          = (inr 0, (Provide_init plain_f true (Some true) σ0).2)) as Hrb by reflexivity.
  assert (a = 0) as -> by congruence.
  assert (b = 0) as -> by congruence.
  assert (σa = (Provide_init plain_f true (Some false) σ0).2) as -> by congruence.
  assert (σb = (Provide_init plain_f true (Some true) σ0).2) as -> by congruence.
  split; [exact Hpa|]. split; [exact Hpb|]. exact Hsame.
Defined.

Lemma failed_invocation_not_cached_witness :
  Provide_call 0 [] cached_boom
  = (inl (Raised (PyStr "RuntimeError")),
     State 0 (heap cached_boom) (trace cached_boom ++ [Invoked boom []])).
Proof.
  set (p := Provide.Build boom false true false None None false true Empty).
  assert (heap cached_boom !! 0 = Some p) as Hp by reflexivity.
  assert (dependency_action p [] (world cached_boom)
          = (inl (Raised (PyStr "RuntimeError")), 0)) as Hfail by reflexivity.
  exact (failed_invocation_not_cached 0 p [] _ _ cached_boom Hp (or_intror eq_refl) Hfail).
Defined.

Lemma Provide_call_frame_witness :
  ∃ v, heap (Provide_call 0 [] cached_plain).2 !! 0
       = Some (Provide.Build plain_f false true false None None false true v).
Proof.
  set (p := Provide.Build plain_f false true false None None false true Empty).
  assert (heap cached_plain !! 0 = Some p) as Hp by reflexivity.
  destruct (Provide_call_frame 0 p [] cached_plain Hp) as (_ & (v & Hv & _) & _).
  exists v. exact Hv.
Defined.

Lemma resolved_cache_is_stable_witness :
  call_all 0 [[]; [("x", PyInt 1)]] one_resolved
  = ([inr (PyStr "f"); inr (PyStr "f")], one_resolved).
Proof.
  set (p := Provide.Build plain_f false true false None None false true (PyStr "f")).
  assert (heap one_resolved !! 0 = Some p) as Hp by reflexivity.
  assert (Provide.value p ≠ Empty) as Hval by discriminate.
  exact (resolved_cache_is_stable 0 p [[]; [("x", PyInt 1)]] one_resolved Hp eq_refl Hval).
Defined.

Lemma sentinel_result_reinvoked_witness :
  call_all 0 [[]; []] cached_unset
  = ([inr Empty; inr Empty],
     State 0 (heap cached_unset)
       (trace cached_unset ++ [Invoked empty_f []; Invoked empty_f []])).
Proof.
  set (p := Provide.Build empty_f false true false None None false true Empty).
  assert (heap cached_unset !! 0 = Some p) as Hp by reflexivity.
  assert (wraps_pure p (λ _, Empty)) as Hpure by (intros args w; reflexivity).
  exact (sentinel_result_reinvoked 0 p (λ _, Empty) [[]; []] cached_unset Hp
           eq_refl eq_refl Hpure (λ _ _, eq_refl)).
Defined.

Lemma finalize_frame_witness :
  world (finalize 0 no_plugins async_provider).2 = world async_provider.
Proof.
  set (p := Provide.Build async_f false false false None None false false Empty).
  assert (heap async_provider !! 0 = Some p) as Hp by reflexivity.
  destruct (finalize_frame 0 p no_plugins async_provider Hp) as [Hworld _].
  exact Hworld.
Defined.

Lemma failed_model_creation_keeps_signature_witness :
  ∃ σ1, finalize (H := Plugged.collaborators) 0 Plugged.plugins_and_dto Plugged.class_provider
        = (inl (Raised (PyStr "ImproperlyConfiguredException")), σ1)
        ∧ Provide.parsed_fn_signature <$> heap σ1 !! 0 = Some (Some Plugged.plugin_signature)
        ∧ finalize (H := Plugged.collaborators) 0 Plugged.without_dto σ1
          = (inr (),
             State (world σ1)
               (<[0 := Provide.Build Service false true false (Some Plugged.plugin_signature)
                         (Some (PyClass "SignatureModel" None)) false false Empty]> ∅)
               (trace σ1 ++ [ModelCreated Service])).
Proof.
  set (p := Provide.Build Service false true false None None false false Empty).
  set (e := Raised (PyStr "ImproperlyConfiguredException")).
  set (σ1 := (finalize (H := Plugged.collaborators) 0 Plugged.plugins_and_dto
                Plugged.class_provider).2).
  assert (heap Plugged.class_provider !! 0 = Some p) as Hp by reflexivity.
  assert (finalize (H := Plugged.collaborators) 0 Plugged.plugins_and_dto
            Plugged.class_provider = (inl e, σ1)) as Hfail by reflexivity.
  assert (trace σ1 = trace Plugged.class_provider
                     ++ [SignatureParsed Service; ModelCreated Service]) as Htrace
    by reflexivity.
  assert (ModelCreated (Provide.dependency p)
          ∈ [SignatureParsed Service; ModelCreated Service]) as Hevent
    by (right; left).
  destruct (failed_model_creation_keeps_signature (collab := Plugged.collaborators)
              0 p Plugged.plugins_and_dto e Plugged.class_provider σ1 _
              Hp Hfail Htrace Hevent)
    as (s & Hheap & _ & _ & _ & Hretry).
  assert (Some s = Some Plugged.plugin_signature) as Hs.
  { assert (Provide.parsed_fn_signature <$> heap σ1 !! 0 = Some (Some s)) as Hl
      by (by rewrite Hheap, lookup_insert_eq).
    assert (Provide.parsed_fn_signature <$> heap σ1 !! 0
            = Some (Some Plugged.plugin_signature)) as Hr by reflexivity.
    congruence. }
  exists σ1. split; [exact Hfail|]. split; [reflexivity|].
  assert (create (Collaborators := Plugged.collaborators)
            (FinalizeArgs.dependency_keys Plugged.without_dto) (Provide.dependency p)
            (Some s) (FinalizeArgs.data_dto Plugged.without_dto)
            (FinalizeArgs.type_decoders Plugged.without_dto)
          = inr (PyClass "SignatureModel" None)) as Hok by reflexivity.
  rewrite (Hretry Plugged.without_dto _ Hok).
  injection Hs as ->. reflexivity.
Defined.

Lemma first_matching_plugin_wins_witness :
  ∃ p', heap (finalize (H := Plugged.collaborators) 0 Plugged.with_plugins
                Plugged.class_provider).2 !! 0 = Some p'
        ∧ Provide.parsed_fn_signature p' = Some Plugged.plugin_signature.
Proof.
  set (p := Provide.Build Service false true false None None false false Empty).
  assert (heap Plugged.class_provider !! 0 = Some p) as Hp by reflexivity.
  apply (first_matching_plugin_wins (collab := Plugged.collaborators) 0 p
           Plugged.with_plugins [Plugged.serialization_plugin] Plugged.typed_init_plugin
           [Plugged.typed_init_plugin] (PyStr "signature") (PyStr "hints")
           Plugged.plugin_signature Plugged.class_provider Hp eq_refl eq_refl).
  - intros x Hx. apply list_elem_of_singleton in Hx. rewrite Hx. reflexivity.
  - reflexivity.
  - reflexivity.
  - reflexivity.
Defined.

Lemma default_introspection_witness :
  ∃ p', heap (finalize 0 no_plugins async_provider).2 !! 0 = Some p'
        ∧ Provide.parsed_fn_signature p' = Some (parse (FnDecl "g" AsyncDef [] "str")).
Proof.
  set (p := Provide.Build async_f false false false None None false false Empty).
  assert (heap async_provider !! 0 = Some p) as Hp by reflexivity.
  assert (∀ (di : list pyobj) (x : pyobj), FinalizeArgs.plugins no_plugins = Some di → x ∈ di →
            is_DIPlugin x && has_typed_init x (unwrap_partial (Provide.dependency p)) = false)
    as Hnone by (intros di x Hdi; discriminate Hdi).
  exact (default_introspection 0 p no_plugins async_provider Hp eq_refl Hnone).
Defined.

Lemma equal_until_one_resolves_witness :
  Provide_eq (heap two_unresolved) 0 (PyRef 1) = true
  ∧ Provide_eq (heap (Provide_call 0 [] two_unresolved).2) 0 (PyRef 1) = false
  ∧ Provide_eq (heap (Provide_call 1 [] (Provide_call 0 [] two_unresolved).2).2) 0 (PyRef 1)
    = true.
Proof.
  set (p := Provide.Build plain_f false true false None None false true Empty).
  assert (heap two_unresolved !! 0 = Some p) as Ha by reflexivity.
  assert (heap two_unresolved !! 1 = Some p) as Hb by reflexivity.
  assert (wraps_pure p (λ _, PyStr "f")) as Hpure by (intros args w; reflexivity).
  assert (legal_result (PyStr "f")) as Hlegal by discriminate.
  assert (0 ≠ 1) as Hne by discriminate.
  exact (equal_until_one_resolves 0 1 p p (λ _, PyStr "f") [] two_unresolved Hne Ha Hb
           eq_refl eq_refl eq_refl eq_refl eq_refl Hpure Hpure Hlegal).
Defined.

Lemma merged_handler_runs_parent_guards_first_witness :
  handle (merge (handler_of app [allow]) parent) connection σ0
  = (inr (),
     State 0 ∅ [GuardRan allow; GuardRan allow; Invoked app (transport_kwargs connection)])
  ∧ handle (merge (handler_of app [allow]) outer) connection σ0
    = (inl (Raised (PyStr "NotAuthorizedException")), State 0 ∅ []).
Proof.
  assert (guard_authorize allow connection 0 = (inr (), 0)) as Hallow by reflexivity.
  assert (guard_authorize deny connection 0
          = (inl (Raised (PyStr "NotAuthorizedException")), 0)) as Hdeny by reflexivity.
  assert (guards_pass connection [allow] 0 0) as Hone.
  { apply (guards_pass_cons connection allow [] 0 0 0 Hallow). apply guards_pass_nil. }
  split.
  - destruct (merged_handler_runs_parent_guards_first (handler_of app [allow]) parent
                connection σ0) as [Hpass _].
    exact (Hpass 0 0 Hone Hone).
  - destruct (merged_handler_runs_parent_guards_first (handler_of app [allow]) outer
                connection σ0) as [_ Hfail].
    exact (Hfail [] deny [] 0 _ 0 eq_refl (guards_pass_nil connection 0) Hdeny).
Defined.

Lemma merge_into_bare_scope_witness :
  configures_nothing bare
  ∧ ASGIRouteHandler.opt (merge (handler_of app [deny]) bare)
    = ASGIRouteHandler.opt (handler_of app [deny])
  ∧ ASGIRouteHandler.guards (merge (handler_of app [deny]) bare) = [deny]
  ∧ ASGIRouteHandler.paths (merge (handler_of app [deny]) bare)
    = (λ p, join_paths ["/api"; p]) <$> ASGIRouteHandler.paths (handler_of app [deny])
  ∧ ASGIRouteHandler.signature_types (merge (handler_of app [deny]) bare) = None.
Proof.
  assert (configures_nothing bare) as Hbare by (repeat split; reflexivity).
  split; [exact Hbare|].
  destruct (merge_into_bare_scope (handler_of app [deny]) bare Hbare)
    as (_ & _ & Hg & _ & Ho & _ & _ & _ & _ & _ & Hpaths & _ & _ & _ & Htypes & _).
  split; [exact Ho|]. split; [exact Hg|]. split; [exact Hpaths|exact Htypes].
Defined.

Lemma asgi_decorated_dispatch_witness :
  handle (asgi None None (Some [allow]) None None true None ASGIRouteHandler_init
            no_kwargs app) connection σ0
  = (inr (),
     State 0 ∅
       [GuardRan allow;
        Invoked app [("scope", Connection.scope connection);
                     ("receive", Connection.receive connection);
                     ("send", Connection.send connection)]]).
Proof.
  assert (guard_authorize allow connection 0 = (inr (), 0)) as Hallow by reflexivity.
  assert (guards_pass connection [allow] 0 0) as Hone.
  { apply (guards_pass_cons connection allow [] 0 0 0 Hallow). apply guards_pass_nil. }
  destruct (asgi_decorated_dispatch None None (Some [allow]) None None true None no_kwargs
              app connection σ0 0 Hone) as [Hrun _].
  exact Hrun.
Defined.
End more_examples.
